(** * Weather summaries: a shallow embedding of [weather.py]

    The program reads daily weather readings from a CSV file and renders two
    textual summaries.  Its functions are embedded below under their own
    names.  The Python objects and builtins they call ([float], [int],
    [round], [min], [list.index], [sum], [str] of a float,
    [datetime.fromisoformat], [strftime]) are embedded in module [Py]:

    - a Python [float] is an IEEE 754 binary64 number, here a [spec_float]
      with [prec = 53] and [emax = 1024], and its arithmetic is the
      round-to-nearest-even arithmetic of the standard library's [SpecFloat];
    - a Python [int] is a [Z];
    - a Python [str] is a [string], the UTF-8 bytes of its text; the builtins
      that read text ([int], [float], [fromisoformat]) are embedded for ASCII
      text (Python also reads non-ASCII digits and spaces);
    - an exception is a value of [exn], and a computation that may raise
      returns a [result];
    - the file system is a function from paths to what [open] and
      [csv.reader] make of them, and what the program prints is returned as a
      list of lines. *)

From Stdlib Require Import ZArith List String Ascii Bool Lia.
From Stdlib Require Import Permutation.
From Stdlib Require Import DecimalString.
From Stdlib Require Import Floats.SpecFloat.
Import ListNotations.

Local Open Scope string_scope.
Local Open Scope Z_scope.

(** ** Exceptions and results *)

Inductive exn : Type :=
| ValueError
| TypeError
| OverflowError
| ZeroDivisionError
| IndexError.

Inductive result (A : Type) : Type :=
| Ok (a : A)
| Raise (e : exn).

Arguments Ok {A} a.
Arguments Raise {A} e.

Definition bind {A B : Type} (r : result A) (k : A -> result B) : result B :=
  match r with
  | Ok a => k a
  | Raise e => Raise e
  end.

Notation "x <- r ;; k" := (bind r (fun x => k))
  (at level 61, r at next level, right associativity).

Module Py.

(** ** Floats *)

Definition float : Type := spec_float.

Definition prec : Z := 53.
Definition emax : Z := 1024.

Definition fadd : float -> float -> float := SFadd prec emax.
Definition fsub : float -> float -> float := SFsub prec emax.
Definition fmul : float -> float -> float := SFmul prec emax.
Definition fdiv : float -> float -> float := SFdiv prec emax.

(** [x < y], [x <= y] and [x == y] on floats; all three are false when an
    operand is NaN. *)
Definition flt : float -> float -> bool := SFltb.
Definition fle : float -> float -> bool := SFleb.
Definition feq : float -> float -> bool := SFeqb.

Definition is_nan (x : float) : bool :=
  match x with
  | S754_nan => true
  | _ => false
  end.

Definition is_zero (x : float) : bool :=
  match x with
  | S754_zero _ => true
  | _ => false
  end.

(** The float nearest to the integer [n] (ties to even); infinite when [n]
    is beyond the range of a float. *)
Definition nearest_of_Z (n : Z) : float := binary_normalize prec emax n 0 false.

(** The float nearest to [(-1)^s * m * 10^e], for [m >= 0]: what the
    correctly rounded [strtod] returns for the decimal numeral. *)
Definition nearest_of_decimal (s : bool) (m e : Z) : float :=
  match m with
  | Zpos p =>
      if 0 <=? e
      then binary_round prec emax s (p * Z.to_pos (10 ^ e)) 0
      else
        let '(mz, ez, lz) :=
          SFdiv_core_binary prec emax (Zpos p) 0 (10 ^ (- e)) 0 in
        binary_round_aux prec emax s mz ez lz
  | _ => S754_zero s
  end.

(** ** Reading numerals *)

Definition digit_of_ascii (c : ascii) : option Z :=
  let n := Z.of_N (N_of_ascii c) in
  if (48 <=? n) && (n <=? 57) then Some (n - 48) else None.

Definition is_digit (c : ascii) : bool :=
  match digit_of_ascii c with
  | Some _ => true
  | None => false
  end.

(** [Py_ISSPACE]: space, and the controls from tab (9) to carriage
    return (13). *)
Definition is_space (c : ascii) : bool :=
  let n := Z.of_N (N_of_ascii c) in
  (n =? 32) || ((9 <=? n) && (n <=? 13)).

Fixpoint lstrip (s : list ascii) : list ascii :=
  match s with
  | c :: s' => if is_space c then lstrip s' else s
  | [] => []
  end.

Definition strip (s : list ascii) : list ascii :=
  rev (lstrip (rev (lstrip s))).

(** [digit (["_"] digit)*]: the digits read, most significant first, and the
    text left.  An underscore is read only between two digits. *)
Fixpoint digitpart (s : list ascii) : list Z * list ascii :=
  match s with
  | c :: s' =>
      match digit_of_ascii c with
      | Some d =>
          match s' with
          | "_"%char :: ((c2 :: _) as s'') =>
              if is_digit c2
              then let (ds, r) := digitpart s'' in (d :: ds, r)
              else ([d], s')
          | _ => let (ds, r) := digitpart s' in (d :: ds, r)
          end
      | None => ([], s)
      end
  | [] => ([], [])
  end.

Definition Z_of_digits (ds : list Z) : Z :=
  fold_left (fun acc d => 10 * acc + d) ds 0.

Definition read_sign (s : list ascii) : bool * list ascii :=
  match s with
  | "-"%char :: s' => (true, s')
  | "+"%char :: s' => (false, s')
  | _ => (false, s)
  end.

(** [sys.get_int_max_str_digits()], by default. *)
Definition int_max_str_digits : nat := 4300.

(** [int(s)] for a string: [None] stands for [ValueError]. *)
Definition int_of_str (s : string) : option Z :=
  let (neg, body) := read_sign (strip (list_ascii_of_string s)) in
  match digitpart body with
  | ((_ :: _) as ds, []) =>
      if (List.length ds <=? int_max_str_digits)%nat
      then Some (if neg then - Z_of_digits ds else Z_of_digits ds)
      else None
  | _ => None
  end.

Definition lower (c : ascii) : ascii :=
  let n := N_of_ascii c in
  if ((65 <=? n) && (n <=? 90))%N then ascii_of_N (n + 32) else c.

Definition is_word (w : string) (s : list ascii) : bool :=
  if list_eq_dec ascii_dec (map lower s) (list_ascii_of_string w)
  then true else false.

(** The exponent part [("e" | "E") [sign] digitpart], when there is one. *)
Definition read_exponent (s : list ascii) : option (Z * list ascii) :=
  match s with
  | c :: s' =>
      if is_word "e" [c]
      then
        let (neg, s'') := read_sign s' in
        match digitpart s'' with
        | ((_ :: _) as ds, r) =>
            Some (if neg then - Z_of_digits ds else Z_of_digits ds, r)
        | _ => None
        end
      else Some (0, s)
  | [] => Some (0, [])
  end.

(** [float(s)] for a string: [None] stands for [ValueError]. *)
Definition float_of_str (s : string) : option float :=
  let (neg, body) := read_sign (strip (list_ascii_of_string s)) in
  if is_word "inf" body || is_word "infinity" body then Some (S754_infinity neg)
  else if is_word "nan" body then Some S754_nan
  else
    let (ip, r1) := digitpart body in
    let '(fp, r2, dot_ok) :=
      match r1 with
      | "."%char :: r =>
          let (fp, r2) := digitpart r in
          (fp, r2, match ip, fp with [], [] => false | _, _ => true end)
      | _ => ([], r1, match ip with [] => false | _ => true end)
      end in
    if dot_ok
    then
      match read_exponent r2 with
      | Some (e, []) =>
          Some (nearest_of_decimal neg (Z_of_digits (ip ++ fp)%list)
                  (e - Z.of_nat (List.length fp)))
      | _ => None
      end
    else None.

(** ** Values *)

(** The objects a dataset holds: the Loader builds rows of [str] and [int],
    and the aggregators also take [float]s. *)
Inductive value : Type :=
| VInt (n : Z)
| VFloat (f : float)
| VStr (s : string).

(** [float(v)]. *)
Definition py_float (v : value) : result float :=
  match v with
  | VInt n =>
      match nearest_of_Z n with
      | S754_infinity _ => Raise OverflowError
      | f => Ok f
      end
  | VFloat f => Ok f
  | VStr s =>
      match float_of_str s with
      | Some f => Ok f
      | None => Raise ValueError
      end
  end.

(** ** Arithmetic on values *)

(** The float nearest to [a / b] for integers [a] and [b <> 0]. *)
Definition nearest_of_quotient (a b : Z) : float :=
  let s := xorb (a <? 0) (b <? 0) in
  match a with
  | Z0 => S754_zero s
  | _ =>
      let '(mz, ez, lz) :=
        SFdiv_core_binary prec emax (Z.abs a) 0 (Z.abs b) 0 in
      binary_round_aux prec emax s mz ez lz
  end.

Definition finite_or_overflow (f : float) : result float :=
  match f with
  | S754_infinity _ => Raise OverflowError
  | _ => Ok f
  end.

(** [a + b]. *)
Definition py_add (a b : value) : result value :=
  match a, b with
  | VInt x, VInt y => Ok (VInt (x + y))
  | VStr x, VStr y => Ok (VStr (x ++ y))
  | VStr _, _ | _, VStr _ => Raise TypeError
  | _, _ =>
      x <- py_float a ;;
      y <- py_float b ;;
      Ok (VFloat (fadd x y))
  end.

(** [a / b]. *)
Definition py_truediv (a b : value) : result value :=
  match a, b with
  | VStr _, _ | _, VStr _ => Raise TypeError
  | VInt x, VInt y =>
      if y =? 0 then Raise ZeroDivisionError
      else
        q <- finite_or_overflow (nearest_of_quotient x y) ;;
        Ok (VFloat q)
  | _, _ =>
      x <- py_float a ;;
      y <- py_float b ;;
      if is_zero y then Raise ZeroDivisionError
      else Ok (VFloat (fdiv x y))
  end.

(** [n / d] rounded to the nearest integer, ties to the even one, for
    [d > 0]. *)
Definition Zdiv_half_even (n d : Z) : Z :=
  let q := n / d in
  match 2 * (n mod d) ?= d with
  | Lt => q
  | Gt => q + 1
  | Eq => if Z.even q then q else q + 1
  end.

(** The integer nearest to [10 * |x|], ties to even, for a finite [x]. *)
Definition tenths (x : float) : Z :=
  match x with
  | S754_finite _ m e =>
      if 0 <=? e then 10 * Zpos m * 2 ^ e
      else Zdiv_half_even (10 * Zpos m) (2 ^ (- e))
  | _ => 0
  end.

(** [round(x, 1)]: the exact value of [x] is rounded to one decimal place,
    ties to even, and the decimal numeral is read back as a float.  NaN,
    the infinities and the zeros round to themselves.  (CPython raises
    OverflowError when the numeral read back is infinite, which a numeral
    with one decimal place never is.) *)
Definition round1 (x : float) : float :=
  match x with
  | S754_finite s _ _ => nearest_of_decimal s (tenths x) (-1)
  | _ => x
  end.

(** ** Printing numbers *)

(** The decimal numeral of an integer, with a minus sign when negative. *)
Definition decimal (n : Z) : string := NilZero.string_of_int (Z.to_int n).

Definition ascii_of_digit (d : Z) : ascii := ascii_of_N (Z.to_N (48 + d)).

(** [%02d] for [0 <= n]: at least two digits. *)
Definition pad2 (n : Z) : string :=
  if n <? 10 then String "0" (decimal n) else decimal n.

Fixpoint zeros (n : nat) : string :=
  match n with
  | O => ""
  | S n' => String "0" (zeros n')
  end.

Fixpoint rstrip_zeros (s : string) : string :=
  match s with
  | String c s' =>
      match rstrip_zeros s' with
      | "" => if Ascii.eqb c "0" then "" else String c ""
      | r => String c r
      end
  | "" => ""
  end.

Definition same_float (a b : float) : bool :=
  match a, b with
  | S754_finite s m e, S754_finite t n f =>
      Bool.eqb s t && Pos.eqb m n && Z.eqb e f
  | S754_zero s, S754_zero t => Bool.eqb s t
  | S754_infinity s, S754_infinity t => Bool.eqb s t
  | S754_nan, S754_nan => true
  | _, _ => false
  end.

(** [p] with [10^(p-1) <= N/D < 10^p], for [N, D > 0]. *)
Definition decimal_exponent (N D : Z) : Z :=
  if D <=? N then Z.of_nat (String.length (decimal (N / D)))
  else 1 - Z.of_nat (String.length (decimal ((D + N - 1) / N - 1))).

(** The [n]-digit numeral [d * 10^(p-n)] that reads back as [x = N/D], when
    one of the two nearest to [x] does: the nearer one when both do. *)
Definition candidate (x : float) (N D p n : Z) : option Z :=
  let (a, b) :=
    if p <=? n then (N * 10 ^ (n - p), D) else (N, D * 10 ^ (p - n)) in
  let lo := a / b in
  let hi := lo + 1 in
  let reads_back d := same_float (nearest_of_decimal false d (p - n)) x in
  match reads_back lo, reads_back hi with
  | true, true =>
      Some match 2 * (a mod b) ?= b with
           | Lt => lo
           | Gt => hi
           | Eq => if Z.even lo then lo else hi
           end
  | true, false => Some lo
  | false, true => Some hi
  | false, false => None
  end.

Fixpoint shortest (x : float) (N D p : Z) (ns : list Z) : Z * Z :=
  match ns with
  | n :: ns' =>
      match candidate x N D p n with
      | Some d => (d, n)
      | None => shortest x N D p ns'
      end
  | [] => (0, 0)
  end.

(** The shortest digit string that reads back as the float [m * 2^e], and
    the position [decpt] of its decimal point: the float is
    [0.digits * 10^decpt].  Seventeen digits always suffice. *)
Definition shortest_digits (m : positive) (e : Z) : string * Z :=
  let x := binary_round prec emax false m e in
  let (N, D) := if 0 <=? e then (Zpos m * 2 ^ e, 1) else (Zpos m, 2 ^ (- e)) in
  let p := decimal_exponent N D in
  let (d, n) := shortest x N D p (map Z.of_nat (seq 1 17)) in
  let ds := decimal d in
  (rstrip_zeros ds, p + (Z.of_nat (String.length ds) - n)).

(** [repr(x)], which is also [str(x)] and what an f-string prints: the
    shortest digits, with an exponent when [decpt] is below [-3] or above
    [16]. *)
Definition float_repr (x : float) : string :=
  match x with
  | S754_nan => "nan"
  | S754_infinity s => if s then "-inf" else "inf"
  | S754_zero s => if s then "-0.0" else "0.0"
  | S754_finite s m e =>
      let (digits, decpt) := shortest_digits m e in
      let n := Z.of_nat (String.length digits) in
      (if s then "-" else "") ++
      (if (decpt <=? -4) || (16 <? decpt)
       then
         match digits with
         | String c "" => String c ""
         | String c rest => String c ("." ++ rest)
         | "" => ""
         end ++ "e" ++ (if decpt - 1 <? 0 then "-" else "+")
             ++ pad2 (Z.abs (decpt - 1))
       else if decpt <=? 0 then "0." ++ zeros (Z.to_nat (- decpt)) ++ digits
       else if decpt <? n
       then substring 0 (Z.to_nat decpt) digits ++ "."
            ++ substring (Z.to_nat decpt) (Z.to_nat (n - decpt)) digits
       else digits ++ zeros (Z.to_nat (decpt - n)) ++ ".0")
  end.

(** [str(v)], which is what [f"{v}"] prints.  The numeral of an [int] of more
    than [int_max_str_digits] digits is refused with ValueError. *)
Definition py_str (v : value) : result string :=
  match v with
  | VInt n =>
      if (String.length (decimal (Z.abs n)) <=? int_max_str_digits)%nat
      then Ok (decimal n)
      else Raise ValueError
  | VFloat f => Ok (float_repr f)
  | VStr s => Ok s
  end.

(** ** Dates *)

(** The calendar date of a [datetime] object: the only fields the program
    prints. *)
Record date : Type := { year : Z; month : Z; day : Z }.

Definition is_leap (y : Z) : bool :=
  (y mod 4 =? 0) && (negb (y mod 100 =? 0) || (y mod 400 =? 0)).

Definition DAYS_IN_MONTH : list Z :=
  [-1; 31; 28; 31; 30; 31; 30; 31; 31; 30; 31; 30; 31].

Definition DAYS_BEFORE_MONTH : list Z :=
  [-1; 0; 31; 59; 90; 120; 151; 181; 212; 243; 273; 304; 334].

Definition days_in_month (y m : Z) : Z :=
  if (m =? 2) && is_leap y then 29 else nth (Z.to_nat m) DAYS_IN_MONTH 0.

Definition days_before_year (y : Z) : Z :=
  let y1 := y - 1 in
  y1 * 365 + y1 / 4 - y1 / 100 + y1 / 400.

Definition days_before_month (y m : Z) : Z :=
  nth (Z.to_nat m) DAYS_BEFORE_MONTH 0
  + (if (2 <? m) && is_leap y then 1 else 0).

(** The ordinal of a date, 1 January of year 1 being day 1. *)
Definition ymd2ord (y m d : Z) : Z :=
  days_before_year y + days_before_month y m + d.

(** [date.weekday()]: Monday is 0. *)
Definition weekday (dt : date) : Z :=
  (ymd2ord (year dt) (month dt) (day dt) + 6) mod 7.

(** The range checks of the [datetime] constructor on its date fields. *)
Definition valid_date (y m d : Z) : bool :=
  (1 <=? y) && (y <=? 9999) && (1 <=? m) && (m <=? 12)
  && (1 <=? d) && (d <=? days_in_month y m).

Definition obind {A B : Type} (o : option A) (k : A -> option B) : option B :=
  match o with
  | Some a => k a
  | None => None
  end.

(** Exactly [n] ASCII digits, read as a number. *)
Fixpoint read_digits (n : nat) (acc : Z) (s : list ascii)
  : option (Z * list ascii) :=
  match n with
  | O => Some (acc, s)
  | S n' =>
      match s with
      | c :: s' =>
          obind (digit_of_ascii c) (fun d => read_digits n' (10 * acc + d) s')
      | [] => None
      end
  end.

Definition expect (c : ascii) (s : list ascii) : option (list ascii) :=
  match s with
  | c' :: s' => if Ascii.eqb c c' then Some s' else None
  | [] => None
  end.

(** [YYYY-MM-DD] at the head of the text. *)
Definition parse_isoformat_date (s : list ascii)
  : option (Z * Z * Z * list ascii) :=
  obind (read_digits 4 0 s) (fun '(y, s1) =>
  obind (expect "-" s1) (fun s2 =>
  obind (read_digits 2 0 s2) (fun '(m, s3) =>
  obind (expect "-" s3) (fun s4 =>
  obind (read_digits 2 0 s4) (fun '(d, s5) =>
  Some (y, m, d, s5)))))).

(** [.fff] or [.ffffff], in microseconds. *)
Definition parse_fraction (s : list ascii) : option (Z * list ascii) :=
  match read_digits 6 0 s with
  | Some r => Some r
  | None => obind (read_digits 3 0 s) (fun '(ms, r) => Some (1000 * ms, r))
  end.

(** [HH[:MM[:SS[.fff[fff]]]]]: hours, minutes, seconds, microseconds and the
    text left. *)
Definition parse_hh_mm_ss_ff (s : list ascii)
  : option (Z * Z * Z * Z * list ascii) :=
  obind (read_digits 2 0 s) (fun '(hh, s1) =>
  match s1 with
  | ":"%char :: s2 =>
      obind (read_digits 2 0 s2) (fun '(mm, s3) =>
      match s3 with
      | ":"%char :: s4 =>
          obind (read_digits 2 0 s4) (fun '(ss, s5) =>
          match s5 with
          | "."%char :: s6 =>
              obind (parse_fraction s6) (fun '(us, s7) =>
              Some (hh, mm, ss, us, s7))
          | _ => Some (hh, mm, ss, 0, s5)
          end)
      | _ => Some (hh, mm, 0, 0, s3)
      end)
  | _ => Some (hh, 0, 0, 0, s1)
  end).

(** [+HH:MM[:SS[.ffffff]]], with either sign, to the end of the text: an
    offset strictly within 24 hours of UTC. *)
Definition offset_ok (s : list ascii) : bool :=
  match s with
  | c :: s' =>
      if Ascii.eqb c "+" || Ascii.eqb c "-"
      then
        match parse_hh_mm_ss_ff s' with
        | Some (hh, mm, ss, us, []) =>
            ((List.length s' =? 5)%nat || (List.length s' =? 8)%nat
               || (List.length s' =? 15)%nat)
            && (hh * 3600 + mm * 60 + ss <? 86400)
        | _ => false
        end
      else false
  | [] => true
  end.

(** The time part of an ISO string, after the separator: a time in range,
    then nothing or an offset. *)
Definition time_ok (s : list ascii) : bool :=
  match parse_hh_mm_ss_ff s with
  | Some (hh, mm, ss, us, r) =>
      (hh <? 24) && (mm <? 60) && (ss <? 60) && offset_ok r
  | None => false
  end.

(** [datetime.fromisoformat(s)], on the format that the library documents
    (up to CPython 3.10) as the one it reads:
    [YYYY-MM-DD[*HH[:MM[:SS[.fff[fff]]]][+HH:MM[:SS[.ffffff]]]]], where [*] is
    any one character.  Every CPython from 3.7 on reads a string of this
    format alike, and refuses a string that starts with [DDDD-DD-DD] when
    that is no date of the calendar.  Any other string raises ValueError
    here; CPython reads some of them (from 3.11 on the basic format
    [YYYYMMDD] and ISO week dates, for instance), and the properties proved
    below say nothing of those. *)
Definition fromisoformat (s : string) : result date :=
  match parse_isoformat_date (list_ascii_of_string s) with
  | Some (y, m, d, rest) =>
      let time_part_ok :=
        match rest with
        | [] => true
        | _ :: t => time_ok t
        end in
      if time_part_ok && valid_date y m d
      then Ok {| year := y; month := m; day := d |}
      else Raise ValueError
  | None => Raise ValueError
  end.

Definition day_names : list string :=
  ["Monday"; "Tuesday"; "Wednesday"; "Thursday"; "Friday"; "Saturday";
   "Sunday"].

Definition month_names : list string :=
  [""; "January"; "February"; "March"; "April"; "May"; "June"; "July";
   "August"; "September"; "October"; "November"; "December"].

Fixpoint expand_format (fmt : list ascii) (dt : date) : string :=
  match fmt with
  | "%"%char :: c :: fmt' =>
      (if Ascii.eqb c "A" then nth (Z.to_nat (weekday dt)) day_names ""
       else if Ascii.eqb c "d" then pad2 (day dt)
       else if Ascii.eqb c "B" then nth (Z.to_nat (month dt)) month_names ""
       else if Ascii.eqb c "Y" then decimal (year dt)
       else String "%" (String c ""))
      ++ expand_format fmt' dt
  | c :: fmt' => String c (expand_format fmt' dt)
  | [] => ""
  end.

(** [dt.strftime(fmt)], for the directives the program uses, in the C
    locale: [%A] the weekday's name, [%d] the day on two digits, [%B] the
    month's name, [%Y] the year as a decimal numeral (as the C library
    prints it on Linux: without padding).  Other characters stand for
    themselves. *)
Definition strftime (dt : date) (fmt : string) : string :=
  expand_format (list_ascii_of_string fmt) dt.

(** ** Lists and strings *)

(** The line feed, Python's ["\n"]. *)
Definition nl : string := String "010" "".

(** [len(l)]. *)
Definition len {A : Type} (l : list A) : Z := Z.of_nat (List.length l).

(** [l[i]]: a negative index counts from the end. *)
Definition getitem {A : Type} (l : list A) (i : Z) : result A :=
  let j := if i <? 0 then i + len l else i in
  if (0 <=? j) && (j <? len l)
  then
    match nth_error l (Z.to_nat j) with
    | Some a => Ok a
    | None => Raise IndexError
    end
  else Raise IndexError.

(** [sep.join(l)]. *)
Fixpoint join (sep : string) (l : list string) : string :=
  match l with
  | [] => ""
  | [x] => x
  | x :: l' => x ++ sep ++ join sep l'
  end.

(** ** Float objects *)

(** [min], [max] and [list.index] return and compare objects, and
    [list.index] takes an item for the one sought when it is the same object
    or equal to it.  The two differ on NaN only, which is not equal to
    itself.  A float object is a float with the identity [oid]; the floats
    that a list comprehension builds are numbered by their position, two
    positions holding two objects (as they do unless the caller's list holds
    one float object twice). *)
Record float_obj : Type := { oid : nat; oval : float }.

Definition same_or_equal (a b : float_obj) : bool :=
  Nat.eqb (oid a) (oid b) || feq (oval a) (oval b).

(** [min(l)]: the first item that no later item is less than. *)
Fixpoint min_loop (best : float_obj) (l : list float_obj) : float_obj :=
  match l with
  | x :: l' => min_loop (if flt (oval x) (oval best) then x else best) l'
  | [] => best
  end.

Definition py_min (l : list float_obj) : result float_obj :=
  match l with
  | x :: l' => Ok (min_loop x l')
  | [] => Raise ValueError
  end.

(** [max(l)]: the first item that no later item is greater than. *)
Fixpoint max_loop (best : float_obj) (l : list float_obj) : float_obj :=
  match l with
  | x :: l' => max_loop (if flt (oval best) (oval x) then x else best) l'
  | [] => best
  end.

Definition py_max (l : list float_obj) : result float_obj :=
  match l with
  | x :: l' => Ok (max_loop x l')
  | [] => Raise ValueError
  end.

(** [l.index(x)]: the position of the first item that is [x] or equals it;
    ValueError when there is none. *)
Fixpoint index (l : list float_obj) (x : float_obj) : result Z :=
  match l with
  | y :: l' =>
      if same_or_equal y x then Ok 0
      else i <- index l' x ;; Ok (i + 1)
  | [] => Raise ValueError
  end.

End Py.

Import Py.

(** * The program *)

(** [u"\N{DEGREE SIGN}C"]: the degree sign (the bytes 194, 176 in UTF-8) and
    the letter C. *)
Definition DEGREE_SYMBOL : string := String "194" (String "176" "C").

(** [f"{temp}{DEGREE_SYMBOL}"]. *)
Definition format_temperature (temp : value) : result string :=
  t <- py_str temp ;;
  Ok (t ++ DEGREE_SYMBOL)%string.

(** [datetime.fromisoformat] takes a [str] only. *)
Definition convert_date (iso_string : value) : result string :=
  match iso_string with
  | VStr s =>
      date_obj <- fromisoformat s ;;
      Ok (strftime date_obj "%A %d %B %Y")
  | _ => Raise TypeError
  end.

(** [(float(temp_in_fahrenheit) - 32) * 5/9]: the product is taken before the
    quotient, and each [int] operand is converted to a float. *)
Definition convert_f_to_c (temp_in_fahrenheit : value) : result float :=
  f <- py_float temp_in_fahrenheit ;;
  let celsius :=
    fdiv (fmul (fsub f (nearest_of_Z 32)) (nearest_of_Z 5)) (nearest_of_Z 9) in
  Ok (round1 celsius).

(** [sum(float(value) for value in weather_data)]: the items are converted
    one at a time, in order, and added to a total that starts as the [int] 0.
    (The additions are taken in order, each rounded; from CPython 3.12 on
    [sum] also carries a compensation term for floats.) *)
Fixpoint sum_from (total : value) (weather_data : list value) : result value :=
  match weather_data with
  | value :: rest =>
      f <- py_float value ;;
      total' <- py_add total (VFloat f) ;;
      sum_from total' rest
  | [] => Ok total
  end.

Definition calculate_mean (weather_data : list value) : result value :=
  match
    total <- sum_from (VInt 0) weather_data ;;
    py_truediv total (VInt (len weather_data))
  with
  | Ok mean => Ok mean
  | Raise ZeroDivisionError => Ok (VFloat (S754_zero false))
  | Raise ValueError => Ok (VStr "Cannot divide by zero")
  | Raise e => Raise e
  end.

(** [[float(value) for value in weather_data]], the floats numbered from
    [i] on. *)
Fixpoint float_list (i : nat) (weather_data : list value)
  : result (list float_obj) :=
  match weather_data with
  | value :: rest =>
      f <- py_float value ;;
      fs <- float_list (S i) rest ;;
      Ok ({| oid := i; oval := f |} :: fs)
  | [] => Ok []
  end.

(** The result is [None] for the empty tuple [()]. *)
Definition find_min (weather_data : list value) : result (option (float * Z)) :=
  match weather_data with
  | [] => Ok None
  | _ =>
      float_data <- float_list 0 weather_data ;;
      min_value <- py_min float_data ;;
      i <- index (rev float_data) min_value ;;
      let last_index := len float_data - 1 - i in
      Ok (Some (oval min_value, last_index))
  end.

Definition find_max (weather_data : list value) : result (option (float * Z)) :=
  match weather_data with
  | [] => Ok None
  | _ =>
      float_data <- float_list 0 weather_data ;;
      max_value <- py_max float_data ;;
      i <- index (rev float_data) max_value ;;
      let last_index := len float_data - 1 - i in
      Ok (Some (oval max_value, last_index))
  end.

(** ** The Loader *)

(** What [open] and [csv.reader] make of a path: the file is missing, or the
    reader yields [rows], one list of fields per record of the file and the
    empty list for a blank line, and then stops, or fails with the message
    [failure]. *)
Inductive file : Type :=
| Missing
| Contents (rows : list (list string)) (failure : option string).

Definition truthy_list {A : Type} (l : list A) : bool :=
  match l with
  | [] => false
  | _ => true
  end.

Definition truthy_str (s : string) : bool :=
  match s with
  | EmptyString => false
  | _ => true
  end.

(** [processed_row = [row[0]]], then for [i] in [range(1, len(row))] the
    field [row[i]] is appended, as the [int] it reads as or, on ValueError,
    as it is. *)
Definition process_row (row : list string) : list value :=
  fold_left
    (fun processed_row i =>
       let field := nth i row ""%string in
       match int_of_str field with
       | Some n => processed_row ++ [VInt n]
       | None => processed_row ++ [VStr field]
       end)%list
    (seq 1 (List.length row - 1))
    [VStr (nth 0 row ""%string)].

Record loader_state : Type :=
  { header_skipped : bool; data : list (list value) }.

(** The body of [for row in reader]. *)
Definition loader_step (st : loader_state) (row : list string) : loader_state :=
  if truthy_list row && truthy_str "for cell in row"
  then
    if negb (header_skipped st)
    then {| header_skipped := true; data := data st |}
    else {| header_skipped := header_skipped st;
            data := (data st ++ [process_row row])%list |}
  else st.

(** The result is the dataset and the lines printed. *)
Definition load_data_from_csv (fs : string -> file) (csv_file : string)
  : list (list value) * list string :=
  match fs csv_file with
  | Missing =>
      ([], ["Error: The file '" ++ csv_file ++ "' does not exist."]%string)
  | Contents rows failure =>
      let st :=
        fold_left loader_step rows {| header_skipped := false; data := [] |} in
      (data st,
       match failure with
       | Some e => ["An error occurred: " ++ e]%string
       | None => []
       end)
  end.

(** ** The summaries *)

(** [[float(row[k]) for row in weather_data]]. *)
Fixpoint column (k : Z) (weather_data : list (list value))
  : result (list value) :=
  match weather_data with
  | row :: rest =>
      x <- getitem row k ;;
      f <- py_float x ;;
      fs <- column k rest ;;
      Ok (VFloat f :: fs)
  | [] => Ok []
  end.

(** [value, index = t]: unpacking the empty tuple raises ValueError. *)
Definition unpack (t : option (float * Z)) : result (float * Z) :=
  match t with
  | Some p => Ok p
  | None => Raise ValueError
  end.

Definition generate_summary (weather_data : list (list value)) : result string :=
  match weather_data with
  | [] => Ok ""%string
  | _ =>
      min_temps <- column 1 weather_data ;;
      max_temps <- column 2 weather_data ;;

      t <- find_min min_temps ;;
      p <- unpack t ;;
      let (overall_min_temp, min_index) := p : float * Z in
      min_temp_celsius <- convert_f_to_c (VFloat overall_min_temp) ;;
      min_temp_formatted <- format_temperature (VFloat min_temp_celsius) ;;
      min_row <- getitem weather_data min_index ;;
      min_date <- getitem min_row 0 ;;
      min_date_formatted <- convert_date min_date ;;

      t <- find_max max_temps ;;
      p <- unpack t ;;
      let (overall_max_temp, max_index) := p : float * Z in
      max_temp_celsius <- convert_f_to_c (VFloat overall_max_temp) ;;
      max_temp_formatted <- format_temperature (VFloat max_temp_celsius) ;;
      max_row <- getitem weather_data max_index ;;
      max_date <- getitem max_row 0 ;;
      max_date_formatted <- convert_date max_date ;;

      avg_low <- calculate_mean min_temps ;;
      avg_high <- calculate_mean max_temps ;;
      avg_low_celsius <- convert_f_to_c avg_low ;;
      avg_low_formatted <- format_temperature (VFloat avg_low_celsius) ;;
      avg_high_celsius <- convert_f_to_c avg_high ;;
      avg_high_formatted <- format_temperature (VFloat avg_high_celsius) ;;

      let num_days := len weather_data in
      Ok (decimal num_days ++ " Day Overview" ++ nl
          ++ "  The lowest temperature will be " ++ min_temp_formatted
          ++ ", and will occur on " ++ min_date_formatted ++ "." ++ nl
          ++ "  The highest temperature will be " ++ max_temp_formatted
          ++ ", and will occur on " ++ max_date_formatted ++ "." ++ nl
          ++ "  The average low this week is " ++ avg_low_formatted ++ "." ++ nl
          ++ "  The average high this week is " ++ avg_high_formatted ++ "."
          ++ nl)%string
  end.

(** The body of [for row in weather_data]: the block of one day. *)
Definition day_summary (row : list value) : result string :=
  date_str <- getitem row 0 ;;
  min_temp <- getitem row 1 ;;
  max_temp <- getitem row 2 ;;
  formatted_date <- convert_date date_str ;;
  min_temp_celsius <- convert_f_to_c min_temp ;;
  max_temp_celsius <- convert_f_to_c max_temp ;;
  min_temp_formatted <- format_temperature (VFloat min_temp_celsius) ;;
  max_temp_formatted <- format_temperature (VFloat max_temp_celsius) ;;
  Ok ("---- " ++ formatted_date ++ " ----" ++ nl
      ++ "  Minimum Temperature: " ++ min_temp_formatted ++ nl
      ++ "  Maximum Temperature: " ++ max_temp_formatted ++ nl)%string.

Fixpoint daily_loop (summary_lines : list string)
  (weather_data : list (list value)) : result (list string) :=
  match weather_data with
  | row :: rest =>
      day <- day_summary row ;;
      daily_loop (summary_lines ++ [day])%list rest
  | [] => Ok summary_lines
  end.

Definition generate_daily_summary (weather_data : list (list value))
  : result string :=
  summary_lines <- daily_loop [] weather_data ;;
  Ok (join nl summary_lines ++ nl)%string.

(** * The vocabulary of the properties *)

(** Every item of [l] converts by [float], and [fs] are the floats. *)
Definition converts (l : list value) (fs : list float) : Prop :=
  Forall2 (fun v f => py_float v = Ok f) l fs.

(** A float that is a number. *)
Definition not_nan (x : float) : Prop := is_nan x = false.

(** The float sum of [fs], taken from the left from zero. *)
Definition float_sum (fs : list float) : float :=
  fold_left fadd fs (S754_zero false).

(** [sys.maxsize] on a 64-bit build: no list is longer. *)
Definition maxsize : Z := 2 ^ 63 - 1.

(** A row of a well-formed dataset: a valid ISO date, a minimum and a maximum
    that convert to floats, then any further fields. *)
Definition well_formed_row (row : list value) : Prop :=
  exists s dt lo hi rest f1 f2,
    row = VStr s :: lo :: hi :: rest /\
    fromisoformat s = Ok dt /\ py_float lo = Ok f1 /\ py_float hi = Ok f2.

(** The number of line feeds that end a text. *)
Fixpoint leading_newlines (s : list ascii) : nat :=
  match s with
  | c :: s' => if Ascii.eqb c "010" then S (leading_newlines s') else O
  | [] => O
  end.

Definition trailing_newlines (s : string) : nat :=
  leading_newlines (rev (list_ascii_of_string s)).

(** What the Loader makes of a field after the first. *)
Definition coerce (field : string) : value :=
  match int_of_str field with
  | Some n => VInt n
  | None => VStr field
  end.

(** The Loader as the specification words it: the first row of the file is
    dropped as the header, whatever it holds; of the rows after it, the empty
    ones are dropped and the others are processed. *)
Definition skip_first_physical_row (rows : list (list string))
  : list (list value) :=
  map process_row (filter truthy_list (tl rows)).

(** [YYYY-MM-DD], the ISO 8601 calendar-date form of a date. *)
Definition two_digits (n : Z) : string :=
  String (ascii_of_digit (n / 10)) (String (ascii_of_digit (n mod 10)) "").

Definition four_digits (n : Z) : string :=
  (two_digits (n / 100) ++ two_digits (n mod 100))%string.

Definition isoformat (y m d : Z) : string :=
  (four_digits y ++ "-" ++ two_digits m ++ "-" ++ two_digits d)%string.

Definition day_name (dt : date) : string :=
  nth (Z.to_nat (weekday dt)) day_names ""%string.

Definition month_name (dt : date) : string :=
  nth (Z.to_nat (month dt)) month_names ""%string.

(** The Celsius value before rounding, in float arithmetic. *)
Definition celsius (f : float) : float :=
  fdiv (fmul (fsub f (nearest_of_Z 32)) (nearest_of_Z 5)) (nearest_of_Z 9).

(** [k] is the integer nearest to [n / d], and the even one when two
    integers are as near. *)
Definition nearest_even (k n d : Z) : Prop :=
  Z.abs (2 * n - 2 * k * d) <= d /\
  (Z.abs (2 * n - 2 * k * d) = d -> Z.even k = true).

(** Ten times the magnitude of the finite float [m * 2^e], as a fraction. *)
Definition ten_times (m : positive) (e : Z) : Z * Z :=
  if 0 <=? e then (10 * Zpos m * 2 ^ e, 1) else (10 * Zpos m, 2 ^ (- e)).

(** The text of a block of the daily summary ends with the degree symbol and
    a line feed. *)
Definition ends_a_block (block : string) : Prop :=
  exists body, block = (body ++ DEGREE_SYMBOL ++ nl)%string.

(** [math.isfinite(x)]: the float is no infinity and not NaN. *)
Definition is_finite (x : float) : bool :=
  match x with
  | S754_infinity _ | S754_nan => false
  | _ => true
  end.

(** A record of the file that both summaries can read once loaded: an ISO
    date, then a minimum and a maximum that [float] reads as finite numbers,
    then any further fields. *)
Definition readable_record (record : list string) : Prop :=
  exists s dt lo hi rest f1 f2,
    record = s :: lo :: hi :: rest /\ fromisoformat s = Ok dt /\
    float_of_str lo = Some f1 /\ is_finite f1 = true /\
    float_of_str hi = Some f2 /\ is_finite f2 = true.

(** The row has an item at position [k] that converts to a float. *)
Definition converts_at (k : nat) (row : list value) : Prop :=
  exists x f, nth_error row k = Some x /\ py_float x = Ok f.

(** Both sides run the same step next: case analysis on its outcome. *)
Ltac same_step :=
  match goal with
  | |- bind ?r _ = bind ?r _ => destruct r; cbn [bind unpack]; [|reflexivity]
  end;
  try match goal with
  | |- context [let (_, _) := ?p in _] => is_var p; destruct p
  end.

(** An order-preserving key of a float that is a number: its class (the
    infinities, the signed finite numbers, the zeros), then exponent and
    mantissa, negated for a negative number. *)
Definition key (x : float) : Z * Z * Z :=
  match x with
  | S754_nan => (0, 0, 0)
  | S754_zero _ => (0, 0, 0)
  | S754_infinity s => (if s then -2 else 2, 0, 0)
  | S754_finite s m e => if s then (-1, - e, Zneg m) else (1, e, Zpos m)
  end.

Definition key_le (a b : Z * Z * Z) : Prop :=
  let '(c1, e1, m1) := a in
  let '(c2, e2, m2) := b in
  c1 < c2 \/ (c1 = c2 /\ (e1 < e2 \/ (e1 = e2 /\ m1 <= m2))).

Definition key_lt (a b : Z * Z * Z) : Prop :=
  let '(c1, e1, m1) := a in
  let '(c2, e2, m2) := b in
  c1 < c2 \/ (c1 = c2 /\ (e1 < e2 \/ (e1 = e2 /\ m1 < m2))).

(** The float objects that a list comprehension builds from the floats
    [fs], numbered from [i]. *)
Fixpoint number (i : nat) (fs : list float) : list float_obj :=
  match fs with
  | f :: fs' => {| oid := i; oval := f |} :: number (S i) fs'
  | [] => []
  end.

(** The loop that [min] and [max] share: [better x y] says that [x] replaces
    the best item [y] so far. *)
Fixpoint pick (better : float -> float -> bool) (best : float_obj)
  (l : list float_obj) : float_obj :=
  match l with
  | x :: l' => pick better (if better (oval x) (oval best) then x else best) l'
  | [] => best
  end.

(** Case analysis on the comparisons of a goal. *)
Ltac order_cases :=
  repeat match goal with
  | |- context [Z.compare ?a ?b] => destruct (Z.compare_spec a b)
  | |- context [Pos.compare ?a ?b] => destruct (Pos.compare_spec a b)
  end.

(** * Proofs *)

(** ** The order of floats *)

Lemma compare_cont_Eq (m n : positive) :
  Pos.compare_cont Eq m n = Pos.compare m n.
Proof. reflexivity. Qed.

Lemma fle_key (x y : float) :
  is_nan x = false -> is_nan y = false ->
  (fle x y = true <-> key_le (key x) (key y)).
Proof.
  unfold fle, SFleb, SFcompare, key_le, key.
  destruct x as [sx|sx| |sx mx ex], y as [sy|sy| |sy my ey];
    try discriminate; intros _ _;
    try destruct sx; try destruct sy; rewrite ?compare_cont_Eq;
    order_cases; simpl; split; intros; try discriminate; try reflexivity; try lia.
Qed.

Lemma flt_key (x y : float) :
  is_nan x = false -> is_nan y = false ->
  (flt x y = true <-> key_lt (key x) (key y)).
Proof.
  unfold flt, SFltb, SFcompare, key_lt, key.
  destruct x as [sx|sx| |sx mx ex], y as [sy|sy| |sy my ey];
    try discriminate; intros _ _;
    try destruct sx; try destruct sy; rewrite ?compare_cont_Eq;
    order_cases; simpl; split; intros; try discriminate; try reflexivity; try lia.
Qed.

Lemma feq_key (x y : float) :
  is_nan x = false -> is_nan y = false ->
  (feq x y = true <-> key x = key y).
Proof.
  unfold feq, SFeqb, SFcompare, key.
  destruct x as [sx|sx| |sx mx ex], y as [sy|sy| |sy my ey];
    try discriminate; intros _ _;
    try destruct sx; try destruct sy; rewrite ?compare_cont_Eq;
    order_cases; simpl; split; intros; try discriminate; try reflexivity;
    try congruence;
    try (match goal with
         | H : (_, _, _) = (_, _, _) |- _ => injection H; intros; exfalso; lia
         end).
Qed.

Lemma fle_trans (x y z : float) :
  not_nan x -> not_nan y -> not_nan z ->
  fle x y = true -> fle y z = true -> fle x z = true.
Proof.
  intros Hx Hy Hz.
  rewrite (fle_key x y Hx Hy), (fle_key y z Hy Hz), (fle_key x z Hx Hz).
  destruct (key x) as [[c1 e1] m1], (key y) as [[c2 e2] m2],
    (key z) as [[c3 e3] m3]; simpl; lia.
Qed.

Lemma flt_fle (x y : float) :
  not_nan x -> not_nan y -> flt x y = true -> fle x y = true.
Proof.
  intros Hx Hy. rewrite (flt_key x y Hx Hy), (fle_key x y Hx Hy).
  destruct (key x) as [[c1 e1] m1], (key y) as [[c2 e2] m2]; simpl; lia.
Qed.

Lemma not_flt_fle (x y : float) :
  not_nan x -> not_nan y -> flt x y = false -> fle y x = true.
Proof.
  intros Hx Hy H. apply (fle_key y x Hy Hx).
  assert (N : ~ key_lt (key x) (key y)).
  { intro K. apply (flt_key x y Hx Hy) in K. congruence. }
  revert N. destruct (key x) as [[c1 e1] m1], (key y) as [[c2 e2] m2]; simpl; lia.
Qed.

Lemma fle_refl (x : float) : not_nan x -> fle x x = true.
Proof.
  intro Hx. apply (fle_key x x Hx Hx).
  destruct (key x) as [[c e] m]; simpl; lia.
Qed.

Lemma feq_refl (x : float) : not_nan x -> feq x x = true.
Proof. intro Hx. now apply (feq_key x x Hx Hx). Qed.

(** ** The floats of a list, as objects *)

Lemma float_list_number (l : list value) (fs : list float) :
  converts l fs -> forall i, float_list i l = Ok (number i fs).
Proof.
  induction 1 as [|v f l fs Hv _ IH]; intro i; simpl.
  - reflexivity.
  - rewrite Hv. simpl. rewrite IH. reflexivity.
Qed.

Lemma map_oval_number (fs : list float) (i : nat) :
  map oval (number i fs) = fs.
Proof.
  revert i. induction fs as [|f fs IH]; intro i; simpl; [|rewrite IH]; reflexivity.
Qed.

Lemma length_number (fs : list float) (i : nat) :
  List.length (number i fs) = List.length fs.
Proof.
  revert i. induction fs as [|f fs IH]; intro i; simpl; [|rewrite IH]; reflexivity.
Qed.

Lemma number_oid_ge (fs : list float) (i : nat) (a : float_obj) :
  In a (number i fs) -> (i <= oid a)%nat.
Proof.
  revert i. induction fs as [|f fs IH]; intros i; simpl; [tauto|].
  intros [<-|H]; simpl; [lia|]. apply IH in H. lia.
Qed.

Lemma number_inj (fs : list float) (i : nat) (a b : float_obj) :
  In a (number i fs) -> In b (number i fs) -> oid a = oid b -> a = b.
Proof.
  revert i. induction fs as [|f fs IH]; intros i; simpl; [tauto|].
  intros [<-|Ha] [<-|Hb]; simpl; intro E.
  - reflexivity.
  - apply number_oid_ge in Hb. lia.
  - apply number_oid_ge in Ha. lia.
  - now apply (IH (S i)).
Qed.

Lemma number_not_nan (fs : list float) (i : nat) :
  Forall not_nan fs -> Forall (fun o => not_nan (oval o)) (number i fs).
Proof.
  intro H. revert i. induction H; intro i; simpl; constructor; auto.
Qed.

(** *** Picking an extremum *)

Section Pick.

Variable better : float -> float -> bool.
Variable le : float -> float -> Prop.
Hypothesis better_le :
  forall x y, not_nan x -> not_nan y -> better x y = true -> le x y.
Hypothesis not_better_le :
  forall x y, not_nan x -> not_nan y -> better x y = false -> le y x.
Hypothesis le_refl : forall x, not_nan x -> le x x.
Hypothesis le_trans :
  forall x y z, not_nan x -> not_nan y -> not_nan z -> le x y -> le y z -> le x z.

Lemma pick_In (l : list float_obj) (best : float_obj) :
  In (pick better best l) (best :: l).
Proof.
  revert best. induction l as [|x l IH]; intro best; simpl.
  - now left.
  - destruct (IH (if better (oval x) (oval best) then x else best)) as [E|H].
    + destruct (better (oval x) (oval best)); rewrite <- E; tauto.
    + tauto.
Qed.

Lemma pick_le (l : list float_obj) (best : float_obj) :
  Forall (fun o => not_nan (oval o)) (best :: l) ->
  Forall (fun o => le (oval (pick better best l)) (oval o)) (best :: l).
Proof.
  revert best. induction l as [|x l IH]; intros best H; simpl.
  - inversion H; subst. constructor; [auto|constructor].
  - inversion H as [|? ? Hb Hl]; subst. inversion Hl as [|? ? Hx Hl']; subst.
    set (best' := if better (oval x) (oval best) then x else best).
    assert (Hb' : not_nan (oval best')) by (unfold best'; destruct better; assumption).
    assert (Hp : not_nan (oval (pick better best' l))).
    { pose proof (pick_In l best') as Hin.
      assert (HF : Forall (fun o => not_nan (oval o)) (best' :: l)) by (constructor; assumption).
      rewrite Forall_forall in HF. now apply HF. }
    assert (HF' : Forall (fun o => not_nan (oval o)) (best' :: l)) by (constructor; assumption).
    specialize (IH best' HF').
    inversion IH as [|? ? Hle Hrest]; subst.
    assert (Hboth : le (oval best') (oval best) /\ le (oval best') (oval x)).
    { unfold best'. destruct (better (oval x) (oval best)) eqn:E; split; auto. }
    destruct Hboth as [H1 H2].
    constructor; [|constructor]; eauto.
Qed.

End Pick.

Lemma min_loop_pick (l : list float_obj) (best : float_obj) :
  min_loop best l = pick flt best l.
Proof. revert best. induction l as [|x l IH]; intro best; simpl; auto. Qed.

Lemma max_loop_pick (l : list float_obj) (best : float_obj) :
  max_loop best l = pick (fun x y => flt y x) best l.
Proof. revert best. induction l as [|x l IH]; intro best; simpl; auto. Qed.

(** *** The position that [index] returns *)

Lemma same_or_equal_refl (x : float_obj) : same_or_equal x x = true.
Proof. unfold same_or_equal. now rewrite Nat.eqb_refl. Qed.

Lemma index_found (l : list float_obj) (x : float_obj) :
  In x l -> exists i, index l x = Ok i.
Proof.
  induction l as [|y l IH]; simpl; [tauto|].
  intros [->|H].
  - rewrite same_or_equal_refl. eauto.
  - destruct (same_or_equal y x); [eauto|].
    destruct (IH H) as [i ->]. simpl. eauto.
Qed.

Lemma index_spec (l : list float_obj) (x : float_obj) (i : Z) :
  index l x = Ok i ->
  0 <= i < len l /\
  (exists y, nth_error l (Z.to_nat i) = Some y /\ same_or_equal y x = true) /\
  (forall j y, (j < Z.to_nat i)%nat -> nth_error l j = Some y ->
               same_or_equal y x = false).
Proof.
  unfold len. revert i. induction l as [|y l IH]; intro i; simpl; [discriminate|].
  destruct (same_or_equal y x) eqn:E.
  - intros [= <-]. simpl. split; [lia|split].
    + eauto.
    + intros j z Hj. lia.
  - destruct (index l x) as [i'|] eqn:Ei; simpl; [|discriminate].
    intros [= <-]. destruct (IH i' eq_refl) as (Hr & (z & Hz & Hs) & Hb).
    replace (Z.to_nat (i' + 1)) with (S (Z.to_nat i')) by lia.
    split; [lia|split].
    + exists z. auto.
    + intros [|j] w Hj; simpl.
      * intros [= <-]. exact E.
      * apply Hb. lia.
Qed.

Lemma nth_error_number (fs : list float) (i j : nat) (x : float) :
  nth_error fs j = Some x ->
  exists o, nth_error (number i fs) j = Some o /\ oval o = x.
Proof.
  revert i j. induction fs as [|f fs IH]; intros i [|j]; simpl; try discriminate.
  - intros [= <-]. eauto.
  - apply IH.
Qed.

Lemma number_nth_error (fs : list float) (i j : nat) (o : float_obj) :
  nth_error (number i fs) j = Some o -> nth_error fs j = Some (oval o).
Proof.
  revert i j. induction fs as [|f fs IH]; intros i [|j]; simpl; try discriminate.
  - now intros [= <-].
  - apply IH.
Qed.

(** The index that [find_min] and [find_max] compute from the object [m]
    that [min] or [max] returned is a position of the list. *)
Lemma last_index_in_range (objs : list float_obj) (m : float_obj) :
  In m objs ->
  exists i, index (rev objs) m = Ok i /\ 0 <= len objs - 1 - i < len objs.
Proof.
  intro Hm. destruct (index_found (rev objs) m) as [i Hi].
  { now apply in_rev in Hm. }
  exists i. split; [exact Hi|].
  apply index_spec in Hi. destruct Hi as (Hr & _).
  unfold len in *. rewrite length_rev in Hr. lia.
Qed.

(** It is the last position that holds a float equal to the one of [m]. *)
Lemma last_index_is_last (fs : list float) (m : float_obj) (i : Z) :
  Forall not_nan fs -> In m (number 0 fs) ->
  index (rev (number 0 fs)) m = Ok i ->
  let k := Z.to_nat (len (number 0 fs) - 1 - i) in
  (exists x, nth_error fs k = Some x /\ feq x (oval m) = true) /\
  (forall j x, (k < j)%nat -> nth_error fs j = Some x -> feq x (oval m) = false).
Proof.
  intros Hnn Hm Hi k.
  apply index_spec in Hi. destruct Hi as (Hr & (y & Hy & Hs) & Hb).
  unfold len in *. rewrite length_rev in Hr.
  pose proof (length_number fs 0) as Hlen.
  rewrite nth_error_rev in Hy.
  destruct (Nat.ltb_spec (Z.to_nat i) (List.length (number 0 fs))) as [Hlt|];
    [|discriminate].
  assert (Hk : k = (List.length (number 0 fs) - S (Z.to_nat i))%nat)
    by (unfold k; lia).
  split.
  - exists (oval y). split.
    + rewrite Hk. now apply number_nth_error in Hy.
    + unfold same_or_equal in Hs. apply orb_true_iff in Hs.
      destruct Hs as [Hs|Hs]; [|exact Hs].
      apply Nat.eqb_eq in Hs.
      assert (y = m) as ->.
      { apply (number_inj fs 0); auto. now apply nth_error_In in Hy. }
      apply feq_refl.
      pose proof (number_not_nan fs 0 Hnn) as HF.
      rewrite Forall_forall in HF. now apply HF.
  - intros j x Hj Hx.
    assert (Hjl : (j < List.length fs)%nat).
    { apply nth_error_Some. congruence. }
    destruct (nth_error_number fs 0 j x Hx) as (z & Hz & <-).
    assert (Hrev : nth_error (rev (number 0 fs))
                     (List.length (number 0 fs) - S j) = Some z).
    { rewrite nth_error_rev.
      destruct (Nat.ltb_spec (List.length (number 0 fs) - S j)
                  (List.length (number 0 fs))) as [_|]; [|lia].
      rewrite <- Hz. f_equal. lia. }
    apply Hb in Hrev; [|lia].
    unfold same_or_equal in Hrev. apply orb_false_iff in Hrev. tauto.
Qed.

Section PickLast.

Variable better : float -> float -> bool.
Variable le : float -> float -> Prop.
Hypothesis better_le :
  forall x y, not_nan x -> not_nan y -> better x y = true -> le x y.
Hypothesis not_better_le :
  forall x y, not_nan x -> not_nan y -> better x y = false -> le y x.
Hypothesis le_refl : forall x, not_nan x -> le x x.
Hypothesis le_trans :
  forall x y z, not_nan x -> not_nan y -> not_nan z -> le x y -> le y z -> le x z.

Lemma pick_last (f : float) (fs : list float) :
  Forall not_nan (f :: fs) ->
  let objs := number 0 (f :: fs) in
  let m := pick better {| oid := 0; oval := f |} (number 1 fs) in
  exists i,
    index (rev objs) m = Ok i /\
    In (oval m) (f :: fs) /\
    Forall (fun x => le (oval m) x) (f :: fs) /\
    0 <= len objs - 1 - i < len (f :: fs) /\
    (exists x, nth_error (f :: fs) (Z.to_nat (len objs - 1 - i)) = Some x
               /\ feq x (oval m) = true) /\
    (forall j x, (Z.to_nat (len objs - 1 - i) < j)%nat ->
                 nth_error (f :: fs) j = Some x -> feq x (oval m) = false).
Proof.
  intros Hnn objs m.
  assert (Hm : In m objs) by apply pick_In.
  destruct (last_index_in_range objs m Hm) as (i & Hi & Hr).
  exists i. split; [exact Hi|].
  pose proof (map_oval_number (f :: fs) 0) as Hmap. fold objs in Hmap.
  split; [|split; [|split]].
  - rewrite <- Hmap. now apply in_map.
  - pose proof (pick_le better le better_le not_better_le le_refl le_trans
                  (number 1 fs) {| oid := 0; oval := f |}
                  (number_not_nan (f :: fs) 0 Hnn)) as Hle.
    fold m in Hle. rewrite <- Hmap. apply Forall_map. exact Hle.
  - unfold len in *. unfold objs in *. rewrite length_number in *. exact Hr.
  - apply (last_index_is_last (f :: fs) m i Hnn Hm Hi).
Qed.

End PickLast.

Lemma fle_ge_trans (x y z : float) :
  not_nan x -> not_nan y -> not_nan z ->
  fle y x = true -> fle z y = true -> fle z x = true.
Proof. intros; now apply (fle_trans z y x). Qed.

Lemma converts_length (l : list value) (fs : list float) :
  converts l fs -> len l = len fs.
Proof. intro H. unfold len. f_equal. exact (Forall2_length H). Qed.

Lemma find_min_unfold (weather_data : list value) (f : float) (fs : list float) :
  converts weather_data (f :: fs) ->
  find_min weather_data =
  let m := min_loop {| oid := 0; oval := f |} (number 1 fs) in
  i <- index (rev (number 0 (f :: fs))) m ;;
  Ok (Some (oval m, len (number 0 (f :: fs)) - 1 - i)).
Proof.
  intro Hc. pose proof (float_list_number _ _ Hc 0) as Hfl.
  inversion Hc; subst. unfold find_min. rewrite Hfl. reflexivity.
Qed.

Lemma find_max_unfold (weather_data : list value) (f : float) (fs : list float) :
  converts weather_data (f :: fs) ->
  find_max weather_data =
  let m := max_loop {| oid := 0; oval := f |} (number 1 fs) in
  i <- index (rev (number 0 (f :: fs))) m ;;
  Ok (Some (oval m, len (number 0 (f :: fs)) - 1 - i)).
Proof.
  intro Hc. pose proof (float_list_number _ _ Hc 0) as Hfl.
  inversion Hc; subst. unfold find_max. rewrite Hfl. reflexivity.
Qed.

(** C1.  On a non-empty list whose items all convert to floats that are
    numbers, [find_min] returns a pair [(v, i)]: [v] is one of the floats and
    is at most every one of them (the minimum), [i] is a position of the
    list, the float at [i] equals [v], and no float after [i] equals [v] (the
    last occurrence).  [find_max] is symmetric, with [v] at least every
    float.  In particular [find_min([1, 2, 1])] is [(1.0, 2)]. *)
Theorem find_min_max_last_extremum (weather_data : list value) (fs : list float) :
  weather_data <> [] ->
  converts weather_data fs ->
  Forall not_nan fs ->
  (exists v i,
      find_min weather_data = Ok (Some (v, i)) /\
      In v fs /\ Forall (fun x => fle v x = true) fs /\
      0 <= i < len weather_data /\
      (exists x, nth_error fs (Z.to_nat i) = Some x /\ feq x v = true) /\
      (forall j x, (Z.to_nat i < j)%nat -> nth_error fs j = Some x ->
                   feq x v = false)) /\
  (exists v i,
      find_max weather_data = Ok (Some (v, i)) /\
      In v fs /\ Forall (fun x => fle x v = true) fs /\
      0 <= i < len weather_data /\
      (exists x, nth_error fs (Z.to_nat i) = Some x /\ feq x v = true) /\
      (forall j x, (Z.to_nat i < j)%nat -> nth_error fs j = Some x ->
                   feq x v = false)) /\
  find_min [VInt 1; VInt 2; VInt 1] = Ok (Some (nearest_of_Z 1, 2)).
Proof.
  intros Hne Hc Hnn.
  pose proof (converts_length _ _ Hc) as Hlen.
  destruct fs as [|f fs'].
  { inversion Hc; subst. congruence. }
  split; [|split; [|reflexivity]].
  - destruct (pick_last flt (fun x y => fle x y = true)
                flt_fle not_flt_fle fle_refl fle_trans f fs' Hnn)
      as (i & Hi & Hin & Hle & Hr & Hat & Hafter).
    exists (oval (pick flt {| oid := 0; oval := f |} (number 1 fs'))),
      (len (number 0 (f :: fs')) - 1 - i).
    split.
    + rewrite (find_min_unfold _ _ _ Hc). cbv zeta.
      rewrite min_loop_pick, Hi. reflexivity.
    + rewrite Hlen. auto.
  - destruct (pick_last (fun x y => flt y x) (fun x y => fle y x = true)
                (fun x y Hx Hy => flt_fle y x Hy Hx)
                (fun x y Hx Hy => not_flt_fle y x Hy Hx)
                fle_refl fle_ge_trans f fs' Hnn)
      as (i & Hi & Hin & Hle & Hr & Hat & Hafter).
    exists (oval (pick (fun x y => flt y x) {| oid := 0; oval := f |} (number 1 fs'))),
      (len (number 0 (f :: fs')) - 1 - i).
    split.
    + rewrite (find_max_unfold _ _ _ Hc). cbv zeta.
      rewrite max_loop_pick, Hi. reflexivity.
    + rewrite Hlen. auto.
Qed.

Lemma find_min_max_last_extremum_witness :
  (exists v i,
      find_min [VInt 1; VInt 2; VInt 1] = Ok (Some (v, i)) /\
      In v [nearest_of_Z 1; nearest_of_Z 2; nearest_of_Z 1] /\ i = 2) .
Proof.
  destruct (find_min_max_last_extremum
              [VInt 1; VInt 2; VInt 1]
              [nearest_of_Z 1; nearest_of_Z 2; nearest_of_Z 1])
    as ((v & i & H & Hin & _) & _).
  - discriminate.
  - repeat constructor.
  - repeat constructor.
  - exists v, i. split; [exact H|split; [exact Hin|]].
    vm_compute in H. congruence.
Defined.

(** ** Integers as floats *)

Lemma digits2_pos_size (p : positive) : digits2_pos p = Pos.size p.
Proof. induction p; simpl; congruence. Qed.

Lemma digits2_pos_iter_xO (p k : positive) :
  digits2_pos (Pos.iter xO p k) = (digits2_pos p + k)%positive.
Proof.
  induction k using Pos.peano_ind.
  - simpl. lia.
  - rewrite Pos.iter_succ. simpl. rewrite IHk. lia.
Qed.



Lemma iter_pos_iter {A : Type} (f : A -> A) (p : positive) (x : A) :
  iter_pos f p x = Pos.iter f x p.
Proof.
  revert x. induction p as [p IH|p IH|]; intro x; simpl.
  - rewrite !IH, <- !Pos.iter_swap. reflexivity.
  - rewrite !IH. reflexivity.
  - reflexivity.
Qed.

(** Shifting a mantissa of [D] bits right by [k < D] bits leaves a mantissa
    of [D - k] bits. *)
Lemma shr_iter_digits (k : positive) :
  forall (q : positive) (r s : bool),
  (k < digits2_pos q)%positive ->
  exists q',
    shr_m (Pos.iter shr_1 {| shr_m := Zpos q; shr_r := r; shr_s := s |} k)
    = Zpos q'
    /\ (digits2_pos q' + k = digits2_pos q)%positive.
Proof.
  induction k as [|k IH] using Pos.peano_ind; intros q r s Hk.
  - destruct q as [q|q|]; cbn [digits2_pos] in *; [exists q|exists q|lia];
      (split; [reflexivity|lia]).
  - rewrite Pos.iter_succ.
    destruct (IH q r s) as (q' & Hq' & Hd); [lia|].
    destruct (Pos.iter shr_1 {| shr_m := Z.pos q; shr_r := r; shr_s := s |} k)
      as [m' r' s'].
    cbn [shr_m] in Hq'. subst m'.
    destruct q' as [q''|q''|]; cbn [digits2_pos] in *;
      [exists q''|exists q''|lia]; (split; [reflexivity|lia]).
Qed.

Lemma digits2_pos_succ (q : positive) :
  (digits2_pos q <= digits2_pos (Pos.succ q) <= digits2_pos q + 1)%positive.
Proof. induction q; simpl; lia. Qed.

Lemma digits2_pos_le (p : positive) (n : Z) :
  0 <= n -> Zpos p < 2 ^ n -> Zpos (digits2_pos p) <= n.
Proof.
  intros Hn H. rewrite digits2_pos_size.
  pose proof (Pos.size_le p) as Hs.
  destruct (Z.le_gt_cases (Zpos (Pos.size p)) n) as [|Hgt]; [assumption|].
  exfalso.
  assert (H54 : 2 ^ (n + 1) <= 2 ^ Zpos (Pos.size p)).
  { apply Z.pow_le_mono_r; lia. }
  rewrite <- Pos2Z.inj_pow in H54.
  rewrite Z.pow_add_r in H54 by lia.
  lia.
Qed.

(** A positive integer below [2^1023] converts to a finite float that is not
    zero. *)
Lemma nearest_of_Z_finite (n : Z) :
  0 < n < 2 ^ 1023 -> exists m e, nearest_of_Z n = S754_finite false m e.
Proof.
  intros [Hpos Hlt]. destruct n as [|p|p]; try lia.
  pose proof (digits2_pos_le p 1023 ltac:(lia) Hlt) as Hd.
  unfold nearest_of_Z, binary_normalize, binary_round.
  set (d := digits2_pos p) in *.
  assert (Hf : fexp prec emax (Z.pos d + 0) = Zpos d - 53).
  { unfold fexp, emin, prec, emax. lia. }
  rewrite Hf.
  (* the mantissa aligned to at least 53 bits *)
  assert (Hal : exists mz ez,
             shl_align p 0 (Zpos d - 53) = (mz, ez) /\
             53 <= Zpos (digits2_pos mz) /\
             Zpos (digits2_pos mz) + ez = Zpos d /\ -52 <= ez <= 0).
  { unfold shl_align.
    destruct (Zpos d - 53 - 0) as [|k|k] eqn:E.
    - exists p, 0. fold d. repeat split; lia.
    - exists p, 0. fold d. repeat split; lia.
    - exists (Pos.iter xO p k), (Zpos d - 53).
      rewrite digits2_pos_iter_xO. fold d. repeat split; lia. }
  destruct Hal as (mz & ez & -> & Hmz & Hsum & Hez).
  unfold binary_round_aux.
  (* a mantissa of at least 53 bits is shifted to one of exactly 53 bits *)
  assert (Hs : forall (q : positive) (e : Z) (l : location),
             53 <= Zpos (digits2_pos q) -> -52 <= e ->
             exists q' mrs,
               shr_fexp prec emax (Zpos q) e l
               = (mrs, e + (Zpos (digits2_pos q) - 53))
               /\ shr_m mrs = Zpos q' /\ digits2_pos q' = 53%positive).
  { intros q e l Hq He. unfold shr_fexp. simpl Zdigits2.
    replace (fexp prec emax (Zpos (digits2_pos q) + e) - e)
      with (Zpos (digits2_pos q) - 53)
      by (unfold fexp, emin, prec, emax; lia).
    unfold shr.
    destruct (Zpos (digits2_pos q) - 53) as [|k|k] eqn:E; try lia.
    - exists q, (shr_record_of_loc (Zpos q) l).
      split; [f_equal; lia|]. split; [destruct l as [|[]]; reflexivity|lia].
    - rewrite iter_pos_iter.
      assert (Hk : (k < digits2_pos q)%positive) by lia.
      assert (Hrec : exists r s, shr_record_of_loc (Zpos q) l
                                 = {| shr_m := Zpos q; shr_r := r; shr_s := s |}).
      { destruct l as [|[]]; simpl; eauto. }
      destruct Hrec as (r & s & ->).
      destruct (shr_iter_digits k q r s Hk) as (q' & Hq' & Hdq).
      exists q', (Pos.iter shr_1 {| shr_m := Z.pos q; shr_r := r; shr_s := s |} k).
      split; [f_equal; lia|]. split; [exact Hq'|lia]. }
  destruct (Hs mz ez loc_Exact Hmz ltac:(lia)) as (q1 & mrs1 & -> & Hq1 & Hd1).
  rewrite Hq1.
  assert (Hr : exists q2, round_nearest_even (Zpos q1) (loc_of_shr_record mrs1)
                          = Zpos q2
                          /\ 53 <= Zpos (digits2_pos q2) <= 54).
  { pose proof (digits2_pos_succ q1) as Hsucc.
    unfold round_nearest_even.
    destruct (loc_of_shr_record mrs1) as [|[]].
    - exists q1. split; [reflexivity|lia].
    - destruct (Z.even (Zpos q1)).
      + exists q1. split; [reflexivity|lia].
      + exists (Pos.succ q1). split; [simpl; f_equal; lia|lia].
    - exists q1. split; [reflexivity|lia].
    - exists (Pos.succ q1). split; [simpl; f_equal; lia|lia]. }
  destruct Hr as (q2 & -> & Hq2).
  destruct (Hs q2 (ez + (Zpos (digits2_pos mz) - 53)) loc_Exact
              ltac:(lia) ltac:(lia)) as (q3 & mrs3 & -> & Hq3 & Hd3).
  rewrite Hq3.
  destruct (Z.leb_spec (ez + (Z.pos (digits2_pos mz) - 53)
                        + (Z.pos (digits2_pos q2) - 53)) (emax - prec));
    [eauto|unfold emax, prec in *; lia].
Qed.

(** ** The mean *)

Lemma py_add_floats (t f : float) :
  py_add (VFloat t) (VFloat f) = Ok (VFloat (fadd t f)).
Proof. reflexivity. Qed.

Lemma py_add_zero (f : float) :
  py_add (VInt 0) (VFloat f) = Ok (VFloat (fadd (S754_zero false) f)).
Proof. reflexivity. Qed.

Lemma sum_from_floats (l : list value) (fs : list float) :
  converts l fs ->
  forall t, sum_from (VFloat t) l = Ok (VFloat (fold_left fadd fs t)).
Proof.
  induction 1 as [|v f l fs Hv _ IH]; intro t; cbn [sum_from fold_left].
  - reflexivity.
  - rewrite Hv. cbn [bind]. rewrite py_add_floats. cbn [bind]. apply IH.
Qed.

Lemma sum_from_zero (l : list value) (fs : list float) :
  converts l fs -> l <> [] ->
  sum_from (VInt 0) l = Ok (VFloat (float_sum fs)).
Proof.
  intros Hc Hne. destruct Hc as [|v f l fs Hv Hc]; [congruence|].
  cbn [sum_from]. rewrite Hv. cbn [bind]. rewrite py_add_zero. cbn [bind].
  apply (sum_from_floats _ _ Hc).
Qed.

Lemma sum_from_floats_failure (pre : list value) (fs : list float)
  (x : value) (post : list value) (e : exn) :
  converts pre fs -> py_float x = Raise e ->
  forall t, sum_from (VFloat t) (pre ++ x :: post) = Raise e.
Proof.
  intros Hc Hx.
  induction Hc as [|v f l fs Hv _ IH]; intro t; cbn [sum_from app].
  - rewrite Hx. reflexivity.
  - rewrite Hv. cbn [bind]. rewrite py_add_floats. cbn [bind]. apply IH.
Qed.

(** The conversion that fails first decides how the sum ends. *)
Lemma sum_from_first_failure (pre : list value) (fs : list float)
  (x : value) (post : list value) (e : exn) :
  converts pre fs -> py_float x = Raise e ->
  sum_from (VInt 0) (pre ++ x :: post) = Raise e.
Proof.
  intros Hc Hx. destruct Hc as [|v f l fs Hv Hc]; cbn [sum_from app].
  - rewrite Hx. reflexivity.
  - rewrite Hv. cbn [bind]. rewrite py_add_zero. cbn [bind].
    apply (sum_from_floats_failure _ _ _ _ _ Hc Hx).
Qed.

Lemma truediv_count (t : float) (n : Z) :
  0 < n <= maxsize ->
  py_truediv (VFloat t) (VInt n) = Ok (VFloat (fdiv t (nearest_of_Z n))).
Proof.
  intro Hn. destruct (nearest_of_Z_finite n) as (m & e & Hf).
  { unfold maxsize in Hn. assert (2 ^ 63 < 2 ^ 1023) by (apply Z.pow_lt_mono_r; lia). lia. }
  unfold py_truediv, py_float. rewrite Hf. reflexivity.
Qed.

Lemma calculate_mean_converts (l : list value) (fs : list float) :
  l <> [] -> len l <= maxsize -> converts l fs ->
  calculate_mean l = Ok (VFloat (fdiv (float_sum fs) (nearest_of_Z (len l)))).
Proof.
  intros Hne Hlen Hc. unfold calculate_mean.
  rewrite (sum_from_zero _ _ Hc Hne). cbn [bind].
  rewrite truediv_count; [reflexivity|].
  split; [|exact Hlen]. unfold len. destruct l; [congruence|simpl; lia].
Qed.

(** C7.  [calculate_mean] of the empty list is 0.0; of a non-empty list whose
    items all convert to floats it is the float sum of the floats divided by
    the count (a list holds at most [sys.maxsize] items).  In particular
    [calculate_mean([1, 2, 3])] is 2.0. *)
Theorem calculate_mean_sum_over_count :
  calculate_mean [] = Ok (VFloat (S754_zero false)) /\
  (forall (weather_data : list value) (fs : list float),
      weather_data <> [] -> len weather_data <= maxsize ->
      converts weather_data fs ->
      calculate_mean weather_data
      = Ok (VFloat (fdiv (float_sum fs) (nearest_of_Z (len weather_data))))) /\
  calculate_mean [VInt 1; VInt 2; VInt 3] = Ok (VFloat (nearest_of_Z 2)).
Proof.
  split; [reflexivity|split; [|reflexivity]].
  intros. now apply calculate_mean_converts.
Qed.

Lemma calculate_mean_sum_over_count_witness :
  calculate_mean [VInt 49; VStr "57.5"; VFloat (nearest_of_Z 49)]
  = Ok (VFloat (fdiv (float_sum [nearest_of_Z 49;
                                 nearest_of_decimal false 575 (-1);
                                 nearest_of_Z 49])
                  (nearest_of_Z 3))).
Proof.
  apply (proj1 (proj2 calculate_mean_sum_over_count)
           [VInt 49; VStr "57.5"; VFloat (nearest_of_Z 49)]).
  - discriminate.
  - vm_compute. discriminate.
  - repeat constructor.
Defined.

(** C2, as stated, fails: an [int] beyond the range of a float fails the
    conversion with OverflowError, which [calculate_mean] does not catch. *)
Lemma calculate_mean_overflow_counterexample :
  py_float (VInt (10 ^ 400)) = Raise OverflowError /\
  calculate_mean [VInt (10 ^ 400)] = Raise OverflowError.
Proof. split; vm_compute; reflexivity. Qed.

(** C2, amended.  When the first item that fails to convert is one that
    [float] rejects with ValueError (a string that is no numeral),
    [calculate_mean] returns the string "Cannot divide by zero"; when it is
    an [int] beyond the range of a float, the OverflowError is raised.  In
    particular [calculate_mean(["a"])] is "Cannot divide by zero". *)
Theorem calculate_mean_first_failure (pre : list value) (fs : list float)
  (x : value) (post : list value) :
  converts pre fs ->
  (py_float x = Raise ValueError ->
   calculate_mean (pre ++ x :: post) = Ok (VStr "Cannot divide by zero")) /\
  (py_float x = Raise OverflowError ->
   calculate_mean (pre ++ x :: post) = Raise OverflowError) /\
  calculate_mean [VStr "a"] = Ok (VStr "Cannot divide by zero").
Proof.
  intro Hc. split; [|split; [|reflexivity]]; intro Hx; unfold calculate_mean;
    rewrite (sum_from_first_failure _ _ _ _ _ Hc Hx); reflexivity.
Qed.

Lemma calculate_mean_first_failure_witness :
  calculate_mean [VInt 1; VStr "2.5"; VStr "a"; VInt (10 ^ 400)]
  = Ok (VStr "Cannot divide by zero").
Proof.
  apply (proj1 (calculate_mean_first_failure
                  [VInt 1; VStr "2.5"]
                  [nearest_of_Z 1; nearest_of_decimal false 25 (-1)]
                  (VStr "a") [VInt (10 ^ 400)] ltac:(repeat constructor))).
  reflexivity.
Defined.

(** ** Rounding *)

Lemma Zdiv_half_even_nearest (n d : Z) :
  0 < d -> nearest_even (Zdiv_half_even n d) n d.
Proof.
  intro Hd. unfold nearest_even, Zdiv_half_even.
  pose proof (Z.div_mod n d ltac:(lia)) as Hn.
  pose proof (Z.mod_pos_bound n d Hd) as Hr.
  set (q := n / d) in *. set (r := n mod d) in *.
  destruct (Z.compare_spec (2 * r) d) as [E|L|G].
  - destruct (Z.even q) eqn:Ev.
    + split; [lia|auto].
    + split; [lia|]. intros _.
      replace (q + 1) with (Z.succ q) by lia.
      rewrite Z.even_succ, <- Z.negb_even, Ev. reflexivity.
  - split; lia.
  - split; lia.
Qed.

Lemma tenths_nearest (s : bool) (m : positive) (e : Z) :
  nearest_even (tenths (S754_finite s m e))
    (fst (ten_times m e)) (snd (ten_times m e)).
Proof.
  unfold tenths, ten_times. destruct (Z.leb_spec 0 e); cbn [fst snd].
  - unfold nearest_even. split; lia.
  - apply Zdiv_half_even_nearest. apply Z.pow_pos_nonneg; lia.
Qed.

(** C5.  For an input that converts to the float [f], [convert_f_to_c]
    returns [(f - 32) * 5 / 9], computed in float arithmetic, rounded to one
    decimal place: for a finite float [x] the result is the float nearest to
    [k / 10], with the sign of [x], where [k] is the integer nearest to ten
    times the magnitude of [x], the even one on a tie.  In particular 32 gives
    0.0, 212 gives 100.0 and 145 gives 62.8.  For an input whose conversion
    fails, the conversion error is raised. *)
Theorem convert_f_to_c_rounds_to_one_decimal :
  (forall (v : value) (f : float),
      py_float v = Ok f -> convert_f_to_c v = Ok (round1 (celsius f))) /\
  (forall (s : bool) (m : positive) (e : Z),
      round1 (S754_finite s m e)
      = nearest_of_decimal s (tenths (S754_finite s m e)) (-1) /\
      nearest_even (tenths (S754_finite s m e))
        (fst (ten_times m e)) (snd (ten_times m e))) /\
  (convert_f_to_c (VInt 32) = Ok (S754_zero false) /\
   convert_f_to_c (VInt 212) = Ok (nearest_of_Z 100) /\
   convert_f_to_c (VInt 145) = Ok (nearest_of_decimal false 628 (-1)) /\
   float_of_str "62.8" = Some (nearest_of_decimal false 628 (-1))) /\
  (forall (v : value) (e : exn),
      py_float v = Raise e -> convert_f_to_c v = Raise e) /\
  convert_f_to_c (VStr "abc") = Raise ValueError.
Proof.
  split; [|split; [|split; [|split]]].
  - intros v f Hv. unfold convert_f_to_c. rewrite Hv. reflexivity.
  - intros s m e. split; [reflexivity|apply tenths_nearest].
  - repeat split; vm_compute; reflexivity.
  - intros v e Hv. unfold convert_f_to_c. rewrite Hv. reflexivity.
  - reflexivity.
Qed.

Lemma convert_f_to_c_rounds_to_one_decimal_witness :
  convert_f_to_c (VStr "77") = Ok (round1 (celsius (nearest_of_Z 77))) /\
  convert_f_to_c (VInt (10 ^ 400)) = Raise OverflowError.
Proof.
  split.
  - apply (proj1 convert_f_to_c_rounds_to_one_decimal). reflexivity.
  - apply (proj1 (proj2 (proj2 (proj2 convert_f_to_c_rounds_to_one_decimal)))).
    vm_compute. reflexivity.
Defined.

(** ** The Loader *)

Lemma map_nth_seq {A B : Type} (g : A -> B) (d : A) (l : list A) :
  map (fun i => g (nth i l d)) (seq 0 (List.length l)) = map g l.
Proof.
  induction l as [|a l IH]; [reflexivity|].
  cbn [List.length seq map nth]. f_equal.
  rewrite <- seq_shift, map_map. exact IH.
Qed.

Lemma process_row_fold (row : list string) (idxs : list nat) (acc : list value) :
  fold_left
    (fun processed_row i =>
       let field := nth i row ""%string in
       match int_of_str field with
       | Some n => processed_row ++ [VInt n]
       | None => processed_row ++ [VStr field]
       end)%list idxs acc
  = (acc ++ map (fun i => coerce (nth i row ""%string)) idxs)%list.
Proof.
  revert acc. induction idxs as [|i idxs IH]; intro acc; cbn [fold_left map].
  - now rewrite app_nil_r.
  - rewrite IH. unfold coerce at 2. cbv zeta.
    destruct (int_of_str (nth i row "")); rewrite <- app_assoc; reflexivity.
Qed.

Lemma process_row_fields (field0 : string) (fields : list string) :
  process_row (field0 :: fields) = VStr field0 :: map coerce fields.
Proof.
  unfold process_row. rewrite process_row_fold.
  replace (List.length (field0 :: fields) - 1)%nat with (List.length fields)
    by (cbn [List.length]; lia).
  cbn [nth app]. f_equal.
  rewrite <- seq_shift, map_map. cbn [nth].
  apply (map_nth_seq coerce).
Qed.

Lemma loader_step_empty (st : loader_state) : loader_step st [] = st.
Proof. reflexivity. Qed.

Lemma loader_step_header (st : loader_state) (row : list string) :
  row <> [] -> header_skipped st = false ->
  loader_step st row = {| header_skipped := true; data := data st |}.
Proof.
  intros Hr Hh. unfold loader_step. rewrite Hh.
  destruct row; [congruence|reflexivity].
Qed.

Lemma loader_step_data (st : loader_state) (row : list string) :
  row <> [] -> header_skipped st = true ->
  loader_step st row
  = {| header_skipped := true; data := (data st ++ [process_row row])%list |}.
Proof.
  intros Hr Hh. unfold loader_step. rewrite Hh.
  destruct row; [congruence|reflexivity].
Qed.

Lemma loader_fold (rows : list (list string)) (st : loader_state) :
  data (fold_left loader_step rows st)
  = (data st
     ++ map process_row
          (if header_skipped st then filter truthy_list rows
           else tl (filter truthy_list rows)))%list.
Proof.
  revert st. induction rows as [|row rows IH]; intro st; cbn [fold_left filter].
  - destruct (header_skipped st); cbn; now rewrite app_nil_r.
  - destruct row as [|field0 fields].
    + rewrite loader_step_empty. cbn [truthy_list]. apply IH.
    + cbn [truthy_list]. destruct (header_skipped st) eqn:Hh.
      * rewrite loader_step_data by (congruence || assumption).
        rewrite IH. cbn [header_skipped data map].
        rewrite <- app_assoc. reflexivity.
      * rewrite loader_step_header by (congruence || assumption).
        rewrite IH. reflexivity.
Qed.

Lemma loader_data (fs : string -> file) (csv_file : string)
  (rows : list (list string)) (failure : option string) :
  fs csv_file = Contents rows failure ->
  fst (load_data_from_csv fs csv_file)
  = map process_row (tl (filter truthy_list rows)).
Proof.
  intro Hf. unfold load_data_from_csv. rewrite Hf. cbn [fst].
  rewrite loader_fold. reflexivity.
Qed.

(** C4, as stated, fails: a blank first line is dropped as an empty row and
    the next row is taken for the header, where the specification drops the
    blank line as the header and keeps the next row.  The file here holds a
    blank line, the row [date,min,max] and the row [2021-07-02,49,67]. *)
Lemma loader_blank_first_line_counterexample :
  let rows := [[]; ["date"; "min"; "max"]; ["2021-07-02"; "49"; "67"]] in
  fst (load_data_from_csv (fun _ => Contents rows None) "weather.csv")
  = [[VStr "2021-07-02"; VInt 49; VInt 67]] /\
  skip_first_physical_row rows
  = [[VStr "date"; VStr "min"; VStr "max"];
     [VStr "2021-07-02"; VInt 49; VInt 67]].
Proof. split; vm_compute; reflexivity. Qed.

(** C4, amended.  The Loader drops the empty rows, wherever they stand, and of
    the rows that are left it drops exactly the first one as the header,
    whatever it holds.  When the first row of the file is not empty, that
    row is the header. *)
Theorem loader_skips_first_nonempty_row (fs : string -> file)
  (csv_file : string) (rows : list (list string)) (failure : option string) :
  fs csv_file = Contents rows failure ->
  fst (load_data_from_csv fs csv_file)
  = map process_row (tl (filter truthy_list rows)) /\
  (truthy_list (hd [] rows) = true ->
   fst (load_data_from_csv fs csv_file) = skip_first_physical_row rows).
Proof.
  intro Hf. split; [now apply (loader_data fs csv_file rows failure)|].
  intro Hh. rewrite (loader_data fs csv_file rows failure Hf).
  unfold skip_first_physical_row.
  destruct rows as [|row rows]; [reflexivity|].
  cbn [hd] in Hh. cbn [filter tl]. rewrite Hh. reflexivity.
Qed.

Lemma loader_skips_first_nonempty_row_witness :
  fst (load_data_from_csv
         (fun _ => Contents [["date"; "min"; "max"]; [];
                             ["2021-07-02"; "49"; "67"]] None)
         "weather.csv")
  = skip_first_physical_row
      [["date"; "min"; "max"]; []; ["2021-07-02"; "49"; "67"]].
Proof.
  apply (loader_skips_first_nonempty_row
           (fun _ => Contents [["date"; "min"; "max"]; [];
                               ["2021-07-02"; "49"; "67"]] None)
           "weather.csv" _ None eq_refl).
  reflexivity.
Defined.

(** C8.  For a path at which there is no file, the Loader prints the error
    and returns the empty dataset. *)
Theorem loader_missing_file (fs : string -> file) (csv_file : string) :
  fs csv_file = Missing ->
  load_data_from_csv fs csv_file
  = ([], ["Error: The file '" ++ csv_file ++ "' does not exist."]%string).
Proof. intro Hf. unfold load_data_from_csv. now rewrite Hf. Qed.

Lemma loader_missing_file_witness :
  load_data_from_csv (fun _ => Missing) "nowhere.csv"
  = ([], ["Error: The file 'nowhere.csv' does not exist."]).
Proof. apply (loader_missing_file (fun _ => Missing) "nowhere.csv"). reflexivity. Defined.

(** The fields after the first, each as the integer it reads as, or as it
    is when [int] refuses it. *)
Lemma coerce_fields (fields : list string) :
  Forall2 (fun field item =>
             match int_of_str field with
             | Some n => item = VInt n
             | None => item = VStr field
             end) fields (map coerce fields).
Proof.
  induction fields as [|field fields IH]; cbn [map]; constructor;
    [|exact IH].
  unfold coerce. destruct (int_of_str field); reflexivity.
Qed.

(** C9.  The dataset that the Loader returns holds one row for each
    non-empty row of the file after the header, in the order of the file,
    none left out and none added: the row of the record [field0 :: fields]
    is [field0] as it is, a string, followed by one item for each further
    field, however many there are, which is the integer that [int] reads the
    field as, or the field as it is, a string, when [int] refuses it. *)
Theorem loader_keeps_date_and_coerces_fields (fs : string -> file)
  (csv_file : string) (rows : list (list string)) (failure : option string) :
  fs csv_file = Contents rows failure ->
  Forall2
    (fun record row =>
       exists field0 fields items,
         record = field0 :: fields /\ row = VStr field0 :: items /\
         Forall2 (fun field item =>
                    match int_of_str field with
                    | Some n => item = VInt n
                    | None => item = VStr field
                    end) fields items)
    (tl (filter truthy_list rows))
    (fst (load_data_from_csv fs csv_file)).
Proof.
  intro Hf. rewrite (loader_data fs csv_file rows failure Hf).
  assert (Hne : Forall (fun record => truthy_list record = true)
                  (tl (filter truthy_list rows))).
  { assert (Hall : Forall (fun record => truthy_list record = true)
                     (filter truthy_list rows)).
    { apply Forall_forall. intros record Hin.
      apply filter_In in Hin. exact (proj2 Hin). }
    destruct (filter truthy_list rows); [constructor|].
    now inversion Hall. }
  induction Hne as [|record records Hrecord _ IH]; cbn [map]; constructor;
    [|exact IH].
  destruct record as [|field0 fields]; [discriminate|].
  exists field0, fields, (map coerce fields).
  split; [reflexivity|]. split; [apply process_row_fields|].
  apply coerce_fields.
Qed.

Lemma loader_keeps_date_and_coerces_fields_witness :
  Forall2
    (fun record row =>
       exists field0 fields items,
         record = field0 :: fields /\ row = VStr field0 :: items /\
         Forall2 (fun field item =>
                    match int_of_str field with
                    | Some n => item = VInt n
                    | None => item = VStr field
                    end) fields items)
    [["2021-07-02"; "49"; "67"; "x"; " 12 "]; ["2021-07-03"; "57.5"; ""]]
    [[VStr "2021-07-02"; VInt 49; VInt 67; VStr "x"; VInt 12];
     [VStr "2021-07-03"; VStr "57.5"; VStr ""]].
Proof.
  exact (loader_keeps_date_and_coerces_fields
           (fun _ => Contents [["date"; "min"; "max"];
                               ["2021-07-02"; "49"; "67"; "x"; " 12 "];
                               [];
                               ["2021-07-03"; "57.5"; ""]] None)
           "weather.csv"
           [["date"; "min"; "max"];
            ["2021-07-02"; "49"; "67"; "x"; " 12 "];
            [];
            ["2021-07-03"; "57.5"; ""]] None eq_refl).
Defined.

(** ** Strings *)

Lemma append_assoc (a b c : string) : ((a ++ b) ++ c = a ++ (b ++ c))%string.
Proof. induction a as [|x a IH]; cbn [append]; [|rewrite IH]; reflexivity. Qed.

Lemma append_nil_r (a : string) : (a ++ "" = a)%string.
Proof. induction a as [|x a IH]; cbn [append]; [|rewrite IH]; reflexivity. Qed.

Lemma list_ascii_of_string_append (a b : string) :
  list_ascii_of_string (a ++ b)
  = (list_ascii_of_string a ++ list_ascii_of_string b)%list.
Proof.
  induction a as [|x a IH]; cbn [append list_ascii_of_string app];
    [|rewrite IH]; reflexivity.
Qed.

(** ** Dates *)

Lemma digit_of_ascii_of_digit (k : Z) :
  0 <= k <= 9 -> digit_of_ascii (ascii_of_digit k) = Some k.
Proof.
  intro H.
  assert (E : k = 0 \/ k = 1 \/ k = 2 \/ k = 3 \/ k = 4 \/ k = 5 \/ k = 6
              \/ k = 7 \/ k = 8 \/ k = 9) by lia.
  repeat destruct E as [->|E]; try subst k; reflexivity.
Qed.

Lemma read_two_digits (n acc : Z) (rest : list ascii) :
  0 <= n <= 99 ->
  read_digits 2 acc (list_ascii_of_string (two_digits n) ++ rest)%list
  = Some (100 * acc + n, rest).
Proof.
  intro H. unfold two_digits. cbn [list_ascii_of_string app read_digits].
  rewrite !digit_of_ascii_of_digit by (Z.to_euclidean_division_equations; lia).
  cbn [obind]. f_equal. f_equal. Z.to_euclidean_division_equations; lia.
Qed.

Lemma read_digits_more (n1 n2 : nat) (acc : Z) (s : list ascii) :
  read_digits (n1 + n2) acc s
  = obind (read_digits n1 acc s) (fun '(a, r) => read_digits n2 a r).
Proof.
  revert acc s. induction n1 as [|n1 IH]; intros acc s; cbn [Nat.add read_digits].
  - reflexivity.
  - destruct s as [|c s]; [reflexivity|].
    destruct (digit_of_ascii c); cbn [obind]; [apply IH|reflexivity].
Qed.

Lemma read_four_digits (n : Z) (rest : list ascii) :
  0 <= n <= 9999 ->
  read_digits 4 0 (list_ascii_of_string (four_digits n) ++ rest)%list
  = Some (n, rest).
Proof.
  intro H. unfold four_digits.
  rewrite list_ascii_of_string_append, <- app_assoc.
  change 4%nat with (2 + 2)%nat. rewrite read_digits_more.
  rewrite read_two_digits by (Z.to_euclidean_division_equations; lia).
  cbn [obind]. rewrite read_two_digits by (Z.to_euclidean_division_equations; lia).
  f_equal. f_equal. Z.to_euclidean_division_equations; lia.
Qed.

Lemma parse_isoformat (y m d : Z) (rest : string) :
  0 <= y <= 9999 -> 0 <= m <= 99 -> 0 <= d <= 99 ->
  parse_isoformat_date (list_ascii_of_string (isoformat y m d ++ rest))
  = Some (y, m, d, list_ascii_of_string rest).
Proof.
  intros Hy Hm Hd. unfold isoformat, parse_isoformat_date.
  rewrite !append_assoc, !list_ascii_of_string_append.
  rewrite read_four_digits by assumption. cbn [obind].
  cbn [list_ascii_of_string app expect]. cbn [obind Ascii.eqb Bool.eqb].
  rewrite read_two_digits by assumption. cbn [obind].
  cbn [list_ascii_of_string app expect]. cbn [obind Ascii.eqb Bool.eqb].
  rewrite read_two_digits by assumption. cbn [obind].
  repeat f_equal; lia.
Qed.

Lemma days_in_month_le (y m : Z) : 1 <= m <= 12 -> days_in_month y m <= 31.
Proof.
  intro H. unfold days_in_month.
  assert (E : m = 1 \/ m = 2 \/ m = 3 \/ m = 4 \/ m = 5 \/ m = 6 \/ m = 7
              \/ m = 8 \/ m = 9 \/ m = 10 \/ m = 11 \/ m = 12) by lia.
  repeat destruct E as [->|E]; try subst m;
    apply Z.leb_le; destruct (is_leap y); reflexivity.
Qed.

Lemma valid_date_bounds (y m d : Z) :
  valid_date y m d = true -> 1 <= y <= 9999 /\ 1 <= m <= 12 /\ 1 <= d <= 31.
Proof.
  unfold valid_date. rewrite !andb_true_iff, !Z.leb_le.
  intros (((((Hy1 & Hy2) & Hm1) & Hm2) & Hd1) & Hd2).
  pose proof (days_in_month_le y m ltac:(lia)). lia.
Qed.

Lemma pad2_two_digits (n : Z) : 0 <= n <= 99 -> pad2 n = two_digits n.
Proof.
  intro H.
  assert (Hall : forallb (fun k => String.eqb (pad2 k) (two_digits k))
                   (map Z.of_nat (seq 0 100)) = true) by (vm_compute; reflexivity).
  rewrite forallb_forall in Hall.
  apply String.eqb_eq, Hall, in_map_iff.
  exists (Z.to_nat n). split; [lia|]. apply in_seq. lia.
Qed.

Lemma fromisoformat_isoformat (y m d : Z) (rest : string) :
  0 <= y <= 9999 -> 0 <= m <= 99 -> 0 <= d <= 99 ->
  fromisoformat (isoformat y m d ++ rest)
  = if match list_ascii_of_string rest with
       | [] => true
       | _ :: t => time_ok t
       end && valid_date y m d
    then Ok {| year := y; month := m; day := d |}
    else Raise ValueError.
Proof.
  intros Hy Hm Hd. unfold fromisoformat.
  rewrite (parse_isoformat y m d rest Hy Hm Hd). reflexivity.
Qed.

Lemma strftime_A_d_B_Y (dt : date) :
  strftime dt "%A %d %B %Y"
  = (day_name dt ++ " " ++ pad2 (day dt) ++ " " ++ month_name dt ++ " "
     ++ decimal (year dt))%string.
Proof.
  change (strftime dt "%A %d %B %Y")
    with (day_name dt ++ " " ++ pad2 (day dt) ++ " " ++ month_name dt ++ " "
          ++ (decimal (year dt) ++ ""))%string.
  now rewrite append_nil_r.
Qed.

Lemma convert_date_isoformat (y m d : Z) :
  valid_date y m d = true ->
  convert_date (VStr (isoformat y m d))
  = Ok (day_name {| year := y; month := m; day := d |} ++ " "
        ++ two_digits d ++ " "
        ++ month_name {| year := y; month := m; day := d |} ++ " "
        ++ decimal y)%string.
Proof.
  intro Hv. destruct (valid_date_bounds y m d Hv) as (Hy & Hm & Hd).
  unfold convert_date. rewrite <- (append_nil_r (isoformat y m d)).
  rewrite fromisoformat_isoformat by lia.
  cbn [list_ascii_of_string andb]. rewrite Hv. cbn [bind].
  rewrite strftime_A_d_B_Y. cbn [year month day].
  rewrite (pad2_two_digits d) by lia. reflexivity.
Qed.




(** ** The daily summary *)

Lemma getitem_ok {A : Type} (l : list A) (i : Z) (a : A) :
  0 <= i -> nth_error l (Z.to_nat i) = Some a -> getitem l i = Ok a.
Proof.
  intros Hi Hn. unfold getitem.
  assert (Hlt : (Z.to_nat i < List.length l)%nat).
  { apply nth_error_Some. congruence. }
  destruct (Z.ltb_spec i 0); [lia|].
  unfold len. destruct (Z.leb_spec 0 i); [|lia].
  destruct (Z.ltb_spec i (Z.of_nat (List.length l))); [|lia].
  cbn [andb]. rewrite Hn. reflexivity.
Qed.

Lemma format_temperature_float (f : float) :
  format_temperature (VFloat f) = Ok (float_repr f ++ DEGREE_SYMBOL)%string.
Proof. reflexivity. Qed.

Lemma day_summary_ends_a_block (row : list value) (block : string) :
  day_summary row = Ok block -> ends_a_block block.
Proof.
  unfold day_summary.
  destruct (getitem row 0) as [date_str|]; cbn [bind]; [|discriminate].
  destruct (getitem row 1) as [min_temp|]; cbn [bind]; [|discriminate].
  destruct (getitem row 2) as [max_temp|]; cbn [bind]; [|discriminate].
  destruct (convert_date date_str) as [formatted_date|]; cbn [bind];
    [|discriminate].
  destruct (convert_f_to_c min_temp) as [min_c|]; cbn [bind]; [|discriminate].
  destruct (convert_f_to_c max_temp) as [max_c|]; cbn [bind]; [|discriminate].
  cbn [bind]. rewrite !format_temperature_float. cbn [bind].
  intros [= <-].
  exists ("---- " ++ formatted_date ++ " ----" ++ nl
          ++ "  Minimum Temperature: " ++ (float_repr min_c ++ DEGREE_SYMBOL)
          ++ nl ++ "  Maximum Temperature: " ++ float_repr max_c)%string.
  rewrite !append_assoc. reflexivity.
Qed.

Lemma day_summary_well_formed (row : list value) :
  well_formed_row row -> exists block, day_summary row = Ok block.
Proof.
  intros (s & dt & lo & hi & rest & f1 & f2 & -> & Hs & Hlo & Hhi).
  unfold day_summary.
  rewrite (getitem_ok _ 0 (VStr s)) by (reflexivity || lia).
  rewrite (getitem_ok _ 1 lo) by (reflexivity || lia).
  rewrite (getitem_ok _ 2 hi) by (reflexivity || lia).
  cbn [bind]. unfold convert_date, convert_f_to_c.
  rewrite Hs, Hlo, Hhi. cbn [bind]. rewrite !format_temperature_float.
  cbn [bind]. eauto.
Qed.

Lemma daily_loop_blocks (weather_data : list (list value))
  (summary_lines lines : list string) :
  daily_loop summary_lines weather_data = Ok lines ->
  exists blocks,
    Forall2 (fun row block => day_summary row = Ok block) weather_data blocks
    /\ lines = (summary_lines ++ blocks)%list.
Proof.
  revert summary_lines.
  induction weather_data as [|row rest IH]; intro summary_lines; cbn [daily_loop].
  - intros [= <-]. exists []. split; [constructor|now rewrite app_nil_r].
  - destruct (day_summary row) as [day|] eqn:Hd; [|discriminate]. cbn [bind].
    intro H. destruct (IH _ H) as (blocks & HF & ->).
    exists (day :: blocks). split; [now constructor|].
    now rewrite <- app_assoc.
Qed.

Lemma daily_loop_total (weather_data : list (list value))
  (summary_lines : list string) :
  Forall well_formed_row weather_data ->
  exists lines, daily_loop summary_lines weather_data = Ok lines.
Proof.
  intro H. revert summary_lines.
  induction H as [|row rest Hrow _ IH]; intro summary_lines; cbn [daily_loop].
  - eauto.
  - destruct (day_summary_well_formed row Hrow) as (block & ->). cbn [bind].
    apply IH.
Qed.

Lemma join_ends_with_last (sep block : string) (blocks : list string) :
  exists pre, join sep (block :: blocks)
              = (pre ++ last (block :: blocks) "")%string.
Proof.
  revert block. induction blocks as [|b blocks IH]; intro block.
  - exists ""%string. reflexivity.
  - destruct (IH b) as (pre & Hpre).
    exists (block ++ sep ++ pre)%string.
    change (join sep (block :: b :: blocks))
      with (block ++ sep ++ join sep (b :: blocks))%string.
    rewrite Hpre, !append_assoc. reflexivity.
Qed.

Lemma trailing_newlines_after_block (body : string) :
  trailing_newlines ((body ++ DEGREE_SYMBOL ++ nl) ++ nl) = 2%nat.
Proof.
  unfold trailing_newlines.
  rewrite !list_ascii_of_string_append, <- !app_assoc, !rev_app_distr.
  reflexivity.
Qed.

Lemma trailing_newlines_joined (block : string) (blocks : list string) :
  Forall ends_a_block (block :: blocks) ->
  trailing_newlines (join nl (block :: blocks) ++ nl) = 2%nat.
Proof.
  intro HF.
  assert (Hlast : ends_a_block (last (block :: blocks) "")).
  { rewrite Forall_forall in HF. apply HF.
    destruct (exists_last (l := block :: blocks) ltac:(discriminate))
      as (l' & a & E).
    rewrite E, last_last. apply in_or_app. right. now left. }
  destruct Hlast as (body & Hbody).
  destruct (join_ends_with_last nl block blocks) as (pre & ->).
  rewrite Hbody, <- (append_assoc pre body).
  apply trailing_newlines_after_block.
Qed.

(** C3, as stated, fails: every block ends with a line feed and one more is
    appended after the join, so the summary of a dataset that is not empty
    ends with two line feeds (a blank line), not one. *)
Lemma generate_daily_summary_counterexample :
  generate_daily_summary [[VStr "2021-07-02"; VInt 49; VInt 67]]
  = Ok ("---- Friday 02 July 2021 ----" ++ nl
        ++ "  Minimum Temperature: 9.4°C" ++ nl
        ++ "  Maximum Temperature: 19.4°C" ++ nl ++ nl)%string /\
  trailing_newlines ("---- Friday 02 July 2021 ----" ++ nl
                     ++ "  Minimum Temperature: 9.4°C" ++ nl
                     ++ "  Maximum Temperature: 19.4°C" ++ nl ++ nl) = 2%nat.
Proof. split; vm_compute; reflexivity. Qed.

(** C3, amended.  The string that [generate_daily_summary] returns is the
    blocks of the days, joined with a line feed, and one more line feed.
    Every block ends with a line feed of its own, so there is a blank line
    between two blocks, and the string ends with exactly two line feeds when
    the dataset is not empty; for the empty dataset it is exactly one line
    feed.  On a dataset of well-formed rows the function does return. *)
Theorem generate_daily_summary_blocks :
  (forall (weather_data : list (list value)) (summary : string),
      generate_daily_summary weather_data = Ok summary ->
      exists blocks,
        Forall2 (fun row block => day_summary row = Ok block)
          weather_data blocks /\
        Forall ends_a_block blocks /\
        summary = (join nl blocks ++ nl)%string /\
        trailing_newlines summary
        = match weather_data with [] => 1%nat | _ => 2%nat end) /\
  (forall weather_data : list (list value),
      Forall well_formed_row weather_data ->
      exists summary, generate_daily_summary weather_data = Ok summary) /\
  generate_daily_summary [] = Ok nl.
Proof.
  split; [|split; [|reflexivity]].
  - intros weather_data summary. unfold generate_daily_summary.
    destruct (daily_loop [] weather_data) as [lines|] eqn:Hl; [|discriminate].
    cbn [bind]. intros [= <-].
    destruct (daily_loop_blocks _ _ _ Hl) as (blocks & HF & ->).
    cbn [app]. exists blocks.
    assert (HE : Forall ends_a_block blocks).
    { clear Hl. induction HF as [|row block rows blocks Hb _ IH];
        constructor; [now apply (day_summary_ends_a_block row)|exact IH]. }
    repeat split; try assumption.
    destruct HF as [|row block rows blocks Hb HF]; [reflexivity|].
    now apply trailing_newlines_joined.
  - intros weather_data H. unfold generate_daily_summary.
    destruct (daily_loop_total weather_data [] H) as (lines & ->).
    cbn [bind]. eauto.
Qed.

Lemma generate_daily_summary_blocks_witness :
  exists summary,
    generate_daily_summary
      [[VStr "2021-07-02T07:00:00+08:00"; VInt 49; VInt 67];
       [VStr "2021-07-03T07:00:00+08:00"; VStr "57"; VInt 68; VStr "extra"]]
    = Ok summary.
Proof.
  apply (proj1 (proj2 generate_daily_summary_blocks)).
  repeat constructor.
  - exists "2021-07-02T07:00:00+08:00",
      {| year := 2021; month := 7; day := 2 |}, (VInt 49), (VInt 67), [],
      (nearest_of_Z 49), (nearest_of_Z 67).
    repeat split; reflexivity.
  - exists "2021-07-03T07:00:00+08:00",
      {| year := 2021; month := 7; day := 3 |}, (VStr "57"), (VInt 68),
      [VStr "extra"], (nearest_of_Z 57), (nearest_of_Z 68).
    repeat split; reflexivity.
Defined.

(** ** The overview *)

Lemma converts_floats (fs : list float) : converts (map VFloat fs) fs.
Proof. induction fs; constructor; auto. Qed.

Lemma len_map {A B : Type} (f : A -> B) (l : list A) : len (map f l) = len l.
Proof. unfold len. now rewrite length_map. Qed.

Lemma columns_well_formed (weather_data : list (list value)) :
  Forall well_formed_row weather_data ->
  exists lows highs,
    column 1 weather_data = Ok (map VFloat lows) /\
    column 2 weather_data = Ok (map VFloat highs) /\
    len lows = len weather_data /\ len highs = len weather_data.
Proof.
  induction 1 as [|row rest Hrow _ IH].
  - exists [], []. repeat split; reflexivity.
  - destruct IH as (lows & highs & Hl & Hh & Hll & Hlh).
    destruct Hrow as (s & dt & lo & hi & more & f1 & f2 & -> & Hs & Hlo & Hhi).
    exists (f1 :: lows), (f2 :: highs). cbn [column].
    rewrite (getitem_ok _ 1 lo) by (reflexivity || lia).
    rewrite (getitem_ok _ 2 hi) by (reflexivity || lia).
    cbn [bind]. rewrite Hlo, Hhi, Hl, Hh. cbn [bind].
    unfold len in *. cbn [List.length map]. repeat split; try reflexivity; lia.
Qed.

Lemma find_min_in_range (weather_data : list value) (fs : list float) :
  weather_data <> [] -> converts weather_data fs ->
  exists v i, find_min weather_data = Ok (Some (v, i))
              /\ 0 <= i < len weather_data.
Proof.
  intros Hne Hc. pose proof (converts_length _ _ Hc) as Hlen.
  destruct fs as [|f fs]; [inversion Hc; subst; congruence|].
  rewrite (find_min_unfold _ _ _ Hc). cbv zeta.
  destruct (last_index_in_range (number 0 (f :: fs))
              (min_loop {| oid := 0; oval := f |} (number 1 fs)))
    as (i & Hi & Hr).
  { rewrite min_loop_pick. apply pick_In. }
  rewrite Hi. cbn [bind]. eexists _, _. split; [reflexivity|].
  unfold len in *. rewrite length_number in *. lia.
Qed.

Lemma find_max_in_range (weather_data : list value) (fs : list float) :
  weather_data <> [] -> converts weather_data fs ->
  exists v i, find_max weather_data = Ok (Some (v, i))
              /\ 0 <= i < len weather_data.
Proof.
  intros Hne Hc. pose proof (converts_length _ _ Hc) as Hlen.
  destruct fs as [|f fs]; [inversion Hc; subst; congruence|].
  rewrite (find_max_unfold _ _ _ Hc). cbv zeta.
  destruct (last_index_in_range (number 0 (f :: fs))
              (max_loop {| oid := 0; oval := f |} (number 1 fs)))
    as (i & Hi & Hr).
  { rewrite max_loop_pick. apply pick_In. }
  rewrite Hi. cbn [bind]. eexists _, _. split; [reflexivity|].
  unfold len in *. rewrite length_number in *. lia.
Qed.

Lemma getitem_in_range {A : Type} (l : list A) (i : Z) :
  0 <= i < len l -> exists a, getitem l i = Ok a /\ In a l.
Proof.
  intro Hi. unfold len in Hi.
  destruct (nth_error l (Z.to_nat i)) as [a|] eqn:Hn.
  - exists a. split; [apply getitem_ok; [lia|exact Hn]|].
    now apply nth_error_In in Hn.
  - apply nth_error_None in Hn. lia.
Qed.

(** The date of the row at a position of a well-formed dataset is there and
    is formatted. *)
Lemma date_lookup (weather_data : list (list value)) (i : Z) :
  Forall well_formed_row weather_data -> 0 <= i < len weather_data ->
  exists row d text,
    getitem weather_data i = Ok row /\ getitem row 0 = Ok d /\
    convert_date d = Ok text.
Proof.
  intros HF Hi. destruct (getitem_in_range _ _ Hi) as (row & Hrow & Hin).
  rewrite Forall_forall in HF.
  destruct (HF row Hin)
    as (s & dt & lo & hi & more & f1 & f2 & -> & Hs & Hlo & Hhi).
  eexists _, (VStr s), _. split; [exact Hrow|].
  split; [reflexivity|]. unfold convert_date. rewrite Hs. reflexivity.
Qed.

Lemma convert_f_to_c_float (f : float) :
  convert_f_to_c (VFloat f) = Ok (round1 (celsius f)).
Proof. reflexivity. Qed.

(** C10.  On a dataset that is not empty, whose rows each hold a valid ISO
    date and then at least two fields that convert to floats,
    [generate_summary] returns a string: the two columns are extracted, the
    indices that [find_min] and [find_max] return for them are positions of
    the dataset, so the rows are found, their dates are there and are
    formatted, and the means are floats.  (A list holds at most
    [sys.maxsize] items.) *)
Theorem generate_summary_completes (weather_data : list (list value)) :
  weather_data <> [] ->
  len weather_data <= maxsize ->
  Forall well_formed_row weather_data ->
  exists min_temps max_temps v_min min_index v_max max_index summary,
    column 1 weather_data = Ok min_temps /\
    column 2 weather_data = Ok max_temps /\
    find_min min_temps = Ok (Some (v_min, min_index)) /\
    0 <= min_index < len weather_data /\
    find_max max_temps = Ok (Some (v_max, max_index)) /\
    0 <= max_index < len weather_data /\
    (exists row d, getitem weather_data min_index = Ok row
                   /\ getitem row 0 = Ok d) /\
    (exists row d, getitem weather_data max_index = Ok row
                   /\ getitem row 0 = Ok d) /\
    generate_summary weather_data = Ok summary.
Proof.
  intros Hne Hmax HF.
  destruct (columns_well_formed _ HF) as (lows & highs & Hl & Hh & Hll & Hlh).
  assert (Hlne : map VFloat lows <> []).
  { destruct lows; [|discriminate]. destruct weather_data; [congruence|].
    unfold len in Hll. cbn in Hll. lia. }
  assert (Hhne : map VFloat highs <> []).
  { destruct highs; [|discriminate]. destruct weather_data; [congruence|].
    unfold len in Hlh. cbn in Hlh. lia. }
  destruct (find_min_in_range _ _ Hlne (converts_floats lows))
    as (v1 & i1 & Hmin & Hi1).
  destruct (find_max_in_range _ _ Hhne (converts_floats highs))
    as (v2 & i2 & Hfmax & Hi2).
  rewrite len_map in Hi1, Hi2. rewrite Hll in Hi1. rewrite Hlh in Hi2.
  destruct (date_lookup _ _ HF Hi1) as (row1 & d1 & t1 & Hr1 & Hd1 & Ht1).
  destruct (date_lookup _ _ HF Hi2) as (row2 & d2 & t2 & Hr2 & Hd2 & Ht2).
  pose proof (calculate_mean_converts _ _ Hlne
                ltac:(rewrite len_map, Hll; exact Hmax)
                (converts_floats lows)) as Hml.
  pose proof (calculate_mean_converts _ _ Hhne
                ltac:(rewrite len_map, Hlh; exact Hmax)
                (converts_floats highs)) as Hmh.
  eexists _, _, v1, i1, v2, i2, _.
  split; [exact Hl|]. split; [exact Hh|]. split; [exact Hmin|].
  split; [exact Hi1|]. split; [exact Hfmax|]. split; [exact Hi2|].
  split; [eauto|]. split; [eauto|].
  unfold generate_summary.
  destruct weather_data as [|row0 rest]; [congruence|].
  rewrite Hl, Hh. cbn [bind]. rewrite Hmin. cbn [bind unpack].
  rewrite convert_f_to_c_float. cbn [bind]. rewrite format_temperature_float.
  cbn [bind]. rewrite Hr1. cbn [bind]. rewrite Hd1. cbn [bind].
  rewrite Ht1. cbn [bind]. rewrite Hfmax. cbn [bind unpack].
  rewrite convert_f_to_c_float. cbn [bind]. rewrite format_temperature_float.
  cbn [bind]. rewrite Hr2. cbn [bind]. rewrite Hd2. cbn [bind].
  rewrite Ht2. cbn [bind]. rewrite Hml, Hmh. cbn [bind].
  rewrite !convert_f_to_c_float. cbn [bind].
  rewrite !format_temperature_float. cbn [bind].
  reflexivity.
Qed.

Lemma generate_summary_completes_witness :
  exists summary,
    generate_summary
      [[VStr "2021-07-02T07:00:00+08:00"; VInt 49; VInt 67];
       [VStr "2021-07-03T07:00:00+08:00"; VStr "57"; VInt 68; VStr "extra"]]
    = Ok summary.
Proof.
  destruct (generate_summary_completes
              [[VStr "2021-07-02T07:00:00+08:00"; VInt 49; VInt 67];
               [VStr "2021-07-03T07:00:00+08:00"; VStr "57"; VInt 68;
                VStr "extra"]])
    as (mins & maxs & v1 & i1 & v2 & i2 & summary & H).
  - discriminate.
  - vm_compute. discriminate.
  - repeat constructor.
    + exists "2021-07-02T07:00:00+08:00",
        {| year := 2021; month := 7; day := 2 |}, (VInt 49), (VInt 67), [],
        (nearest_of_Z 49), (nearest_of_Z 67).
      repeat split; reflexivity.
    + exists "2021-07-03T07:00:00+08:00",
        {| year := 2021; month := 7; day := 3 |}, (VStr "57"), (VInt 68),
        [VStr "extra"], (nearest_of_Z 57), (nearest_of_Z 68).
      repeat split; reflexivity.
  - exists summary. apply H.
Defined.

(** * Further properties *)

(** ** The extrema, further *)

Lemma float_list_failure (pre : list value) (fs : list float) (x : value)
  (post : list value) (e : exn) :
  converts pre fs -> py_float x = Raise e ->
  forall i, float_list i (pre ++ x :: post) = Raise e.
Proof.
  intros Hc Hx. induction Hc as [|v f l fs Hv _ IH]; intro i;
    cbn [float_list app].
  - rewrite Hx. reflexivity.
  - rewrite Hv. cbn [bind]. rewrite IH. reflexivity.
Qed.

(** The value and the index that [find_min] returns. *)
Lemma find_min_value (weather_data : list value) (fs : list float) :
  weather_data <> [] -> converts weather_data fs -> Forall not_nan fs ->
  exists v i,
    find_min weather_data = Ok (Some (v, i)) /\
    In v fs /\ Forall (fun x => fle v x = true) fs /\
    0 <= i < len weather_data /\
    (exists x, nth_error fs (Z.to_nat i) = Some x /\ feq x v = true) /\
    (forall j x, (Z.to_nat i < j)%nat -> nth_error fs j = Some x ->
                 feq x v = false).
Proof.
  intros Hne Hc Hnn. pose proof (converts_length _ _ Hc) as Hlen.
  destruct fs as [|f fs']; [inversion Hc; subst; congruence|].
  destruct (pick_last flt (fun x y => fle x y = true)
              flt_fle not_flt_fle fle_refl fle_trans f fs' Hnn)
    as (i & Hi & Hin & Hle & Hr & Hat & Hafter).
  exists (oval (pick flt {| oid := 0; oval := f |} (number 1 fs'))),
    (len (number 0 (f :: fs')) - 1 - i).
  split.
  - rewrite (find_min_unfold _ _ _ Hc). cbv zeta.
    rewrite min_loop_pick, Hi. reflexivity.
  - rewrite Hlen. auto.
Qed.

(** The value and the index that [find_max] returns. *)
Lemma find_max_value (weather_data : list value) (fs : list float) :
  weather_data <> [] -> converts weather_data fs -> Forall not_nan fs ->
  exists v i,
    find_max weather_data = Ok (Some (v, i)) /\
    In v fs /\ Forall (fun x => fle x v = true) fs /\
    0 <= i < len weather_data /\
    (exists x, nth_error fs (Z.to_nat i) = Some x /\ feq x v = true) /\
    (forall j x, (Z.to_nat i < j)%nat -> nth_error fs j = Some x ->
                 feq x v = false).
Proof.
  intros Hne Hc Hnn. pose proof (converts_length _ _ Hc) as Hlen.
  destruct fs as [|f fs']; [inversion Hc; subst; congruence|].
  destruct (pick_last (fun x y => flt y x) (fun x y => fle y x = true)
              (fun x y Hx Hy => flt_fle y x Hy Hx)
              (fun x y Hx Hy => not_flt_fle y x Hy Hx)
              fle_refl fle_ge_trans f fs' Hnn)
    as (i & Hi & Hin & Hle & Hr & Hat & Hafter).
  exists (oval (pick (fun x y => flt y x) {| oid := 0; oval := f |}
                  (number 1 fs'))),
    (len (number 0 (f :: fs')) - 1 - i).
  split.
  - rewrite (find_max_unfold _ _ _ Hc). cbv zeta.
    rewrite max_loop_pick, Hi. reflexivity.
  - rewrite Hlen. auto.
Qed.

Lemma fle_antisym (x y : float) :
  not_nan x -> not_nan y -> fle x y = true -> fle y x = true -> feq x y = true.
Proof.
  intros Hx Hy. rewrite (fle_key x y Hx Hy), (fle_key y x Hy Hx),
    (feq_key x y Hx Hy).
  destruct (key x) as [[c1 e1] m1], (key y) as [[c2 e2] m2]; simpl.
  intros H1 H2. repeat f_equal; lia.
Qed.

Lemma feq_fle (x y : float) :
  not_nan x -> not_nan y -> feq x y = true -> fle x y = true.
Proof.
  intros Hx Hy. rewrite (feq_key x y Hx Hy), (fle_key x y Hx Hy).
  intros ->. destruct (key y) as [[c e] m]; simpl; lia.
Qed.

(** X1.  [find_min] and [find_max] return the empty tuple for the empty list
    and for no other list: a caller that gets [()] knows the list was
    empty. *)
Theorem find_min_max_empty_iff (weather_data : list value) :
  (find_min weather_data = Ok None <-> weather_data = []) /\
  (find_max weather_data = Ok None <-> weather_data = []).
Proof.
  split; (split; [|intros ->; reflexivity]);
    destruct weather_data as [|v l]; [reflexivity| |reflexivity|].
  - unfold find_min.
    destruct (float_list 0 (v :: l)) as [objs|]; cbn [bind]; [|discriminate].
    destruct (py_min objs) as [m|]; cbn [bind]; [|discriminate].
    destruct (index (rev objs) m); cbn [bind]; discriminate.
  - unfold find_max.
    destruct (float_list 0 (v :: l)) as [objs|]; cbn [bind]; [|discriminate].
    destruct (py_max objs) as [m|]; cbn [bind]; [|discriminate].
    destruct (index (rev objs) m); cbn [bind]; discriminate.
Qed.

(** X2.  When an item of the list does not convert, [find_min] and
    [find_max] raise the error of the first such item: ValueError for a
    string that is no numeral, OverflowError for an [int] beyond the floats.
    Nothing of the list is compared before every item is converted. *)
Theorem find_min_max_first_failure (pre : list value) (fs : list float)
  (x : value) (post : list value) (e : exn) :
  converts pre fs -> py_float x = Raise e ->
  find_min (pre ++ x :: post) = Raise e /\
  find_max (pre ++ x :: post) = Raise e.
Proof.
  intros Hc Hx.
  pose proof (float_list_failure pre fs x post e Hc Hx 0) as Hf.
  unfold find_min, find_max. rewrite Hf.
  destruct (pre ++ x :: post)%list eqn:E;
    [destruct pre; discriminate|split; reflexivity].
Qed.

Lemma find_min_max_first_failure_witness :
  find_min [VInt 3; VStr "2.5"; VStr "n/a"; VInt 1] = Raise ValueError /\
  find_max [VInt 3; VStr "2.5"; VStr "n/a"; VInt 1] = Raise ValueError.
Proof.
  apply (find_min_max_first_failure [VInt 3; VStr "2.5"]
           [nearest_of_Z 3; nearest_of_decimal false 25 (-1)]
           (VStr "n/a") [VInt 1] ValueError).
  - repeat constructor.
  - reflexivity.
Defined.

(** X3.  On a non-empty list whose items convert to floats that are numbers,
    the value of [find_min] is at most the value of [find_max]; when the two
    are equal (every float of the list is then equal to them), both indices
    are the last position of the list. *)
Theorem find_min_le_find_max (weather_data : list value) (fs : list float) :
  weather_data <> [] -> converts weather_data fs -> Forall not_nan fs ->
  exists lo i hi j,
    find_min weather_data = Ok (Some (lo, i)) /\
    find_max weather_data = Ok (Some (hi, j)) /\
    fle lo hi = true /\
    (feq lo hi = true ->
     i = len weather_data - 1 /\ j = len weather_data - 1).
Proof.
  intros Hne Hc Hnn.
  destruct (find_min_value _ _ Hne Hc Hnn)
    as (lo & i & Hmin & Hlo_in & Hlo & Hi & _ & Hi_last).
  destruct (find_max_value _ _ Hne Hc Hnn)
    as (hi & j & Hmax & Hhi_in & Hhi & Hj & _ & Hj_last).
  exists lo, i, hi, j. split; [exact Hmin|]. split; [exact Hmax|].
  rewrite Forall_forall in Hlo, Hhi, Hnn.
  split; [now apply Hlo|].
  intro Heq. pose proof (converts_length _ _ Hc) as Hlen.
  assert (Nlo : not_nan lo) by now apply Hnn.
  assert (Nhi : not_nan hi) by now apply Hnn.
  assert (Hall : forall x, In x fs -> feq x lo = true /\ feq x hi = true).
  { intros x Hx. pose proof (Hnn x Hx) as Nx.
    assert (E1 : feq x lo = true).
    { apply (fle_antisym x lo Nx Nlo); [|now apply Hlo].
      apply (fle_trans x hi lo Nx Nhi Nlo); [now apply Hhi|].
      apply (feq_fle hi lo Nhi Nlo). apply (feq_key hi lo Nhi Nlo).
      symmetry. now apply (feq_key lo hi Nlo Nhi). }
    split; [exact E1|].
    apply (feq_key x hi Nx Nhi).
    apply (feq_key x lo Nx Nlo) in E1. apply (feq_key lo hi Nlo Nhi) in Heq.
    congruence. }
  unfold len in *.
  destruct (nth_error fs (List.length fs - 1)) as [x|] eqn:Hn.
  - destruct (Hall x (nth_error_In _ _ Hn)) as [E1 E2].
    split.
    + destruct (Z.eq_dec i (Z.of_nat (List.length weather_data) - 1)) as [|Hd];
        [assumption|].
      rewrite (Hi_last (List.length fs - 1)%nat x) in E1; [discriminate|lia|exact Hn].
    + destruct (Z.eq_dec j (Z.of_nat (List.length weather_data) - 1)) as [|Hd];
        [assumption|].
      rewrite (Hj_last (List.length fs - 1)%nat x) in E2; [discriminate|lia|exact Hn].
  - apply nth_error_None in Hn. lia.
Qed.

Lemma find_min_le_find_max_witness :
  exists lo i hi j,
    find_min [VInt 57; VStr "49"; VInt 49] = Ok (Some (lo, i)) /\
    find_max [VInt 57; VStr "49"; VInt 49] = Ok (Some (hi, j)) /\
    fle lo hi = true.
Proof.
  destruct (find_min_le_find_max [VInt 57; VStr "49"; VInt 49]
              [nearest_of_Z 57; nearest_of_Z 49; nearest_of_Z 49])
    as (lo & i & hi & j & H1 & H2 & H3 & _).
  - discriminate.
  - repeat constructor.
  - repeat constructor.
  - exists lo, i, hi, j. auto.
Defined.

(** The item at the index that [index] finds in the reversed list. *)
Lemma last_index_item (fs : list float) (m : float_obj) (i : Z) :
  In m (number 0 fs) ->
  index (rev (number 0 fs)) m = Ok i ->
  exists x, nth_error fs (Z.to_nat (len (number 0 fs) - 1 - i)) = Some x /\
            (x = oval m \/ feq x (oval m) = true).
Proof.
  intros Hm Hi.
  apply index_spec in Hi. destruct Hi as (Hr & (y & Hy & Hs) & _).
  unfold len in *. rewrite length_rev in Hr.
  rewrite nth_error_rev in Hy.
  destruct (Nat.ltb_spec (Z.to_nat i) (List.length (number 0 fs))) as [Hlt|];
    [|discriminate].
  exists (oval y). split.
  - replace (Z.to_nat (Z.of_nat (List.length (number 0 fs)) - 1 - i))
      with (List.length (number 0 fs) - S (Z.to_nat i))%nat by lia.
    now apply number_nth_error in Hy.
  - unfold same_or_equal in Hs. apply orb_true_iff in Hs.
    destruct Hs as [Hs|Hs]; [left|right; exact Hs].
    apply Nat.eqb_eq in Hs. f_equal.
    apply (number_inj fs 0); auto. now apply nth_error_In in Hy.
Qed.

(** X4.  [find_min] and [find_max] return on every non-empty list whose
    items convert to floats, a NaN among them or not: [index] finds the
    float that [min] or [max] returned, by identity when it equals no float,
    so the index is a position of the list, and the item there converts to
    the float returned or to one equal to it. *)
Theorem find_min_max_return (weather_data : list value) (fs : list float) :
  weather_data <> [] -> converts weather_data fs ->
  (exists v i x,
      find_min weather_data = Ok (Some (v, i)) /\
      0 <= i < len weather_data /\
      nth_error fs (Z.to_nat i) = Some x /\ (x = v \/ feq x v = true)) /\
  (exists v i x,
      find_max weather_data = Ok (Some (v, i)) /\
      0 <= i < len weather_data /\
      nth_error fs (Z.to_nat i) = Some x /\ (x = v \/ feq x v = true)).
Proof.
  intros Hne Hc. pose proof (converts_length _ _ Hc) as Hlen.
  destruct fs as [|f fs]; [inversion Hc; subst; congruence|].
  split.
  - rewrite (find_min_unfold _ _ _ Hc). cbv zeta.
    assert (Hin : In (min_loop {| oid := 0; oval := f |} (number 1 fs))
                    (number 0 (f :: fs)))
      by (rewrite min_loop_pick; apply pick_In).
    destruct (last_index_in_range _ _ Hin) as (i & Hi & Hr).
    destruct (last_index_item _ _ _ Hin Hi) as (x & Hx & Hv).
    rewrite Hi. cbn [bind]. eexists _, _, x. split; [reflexivity|].
    split; [|split; [exact Hx|exact Hv]].
    unfold len in *. rewrite length_number in *. lia.
  - rewrite (find_max_unfold _ _ _ Hc). cbv zeta.
    assert (Hin : In (max_loop {| oid := 0; oval := f |} (number 1 fs))
                    (number 0 (f :: fs)))
      by (rewrite max_loop_pick; apply pick_In).
    destruct (last_index_in_range _ _ Hin) as (i & Hi & Hr).
    destruct (last_index_item _ _ _ Hin Hi) as (x & Hx & Hv).
    rewrite Hi. cbn [bind]. eexists _, _, x. split; [reflexivity|].
    split; [|split; [exact Hx|exact Hv]].
    unfold len in *. rewrite length_number in *. lia.
Qed.

Lemma find_min_max_return_witness :
  (exists v i x,
      find_min [VStr "nan"; VInt 3; VStr "nan"] = Ok (Some (v, i)) /\
      0 <= i < 3 /\
      nth_error [S754_nan; nearest_of_Z 3; S754_nan] (Z.to_nat i) = Some x /\
      (x = v \/ feq x v = true)) /\
  (exists v i x,
      find_max [VStr "nan"; VInt 3; VStr "nan"] = Ok (Some (v, i)) /\
      0 <= i < 3 /\
      nth_error [S754_nan; nearest_of_Z 3; S754_nan] (Z.to_nat i) = Some x /\
      (x = v \/ feq x v = true)).
Proof.
  apply (find_min_max_return [VStr "nan"; VInt 3; VStr "nan"]
           [S754_nan; nearest_of_Z 3; S754_nan]).
  - discriminate.
  - repeat constructor.
Defined.

(** X5.  The order of the items changes the indices that [find_min] and
    [find_max] return, not the values: on a list of the same items in
    another order, each returns a float equal to the one it returns on the
    list (the floats are numbers). *)
Theorem find_min_max_permutation (weather_data reordered : list value)
  (fs : list float) :
  Permutation weather_data reordered ->
  weather_data <> [] -> converts weather_data fs -> Forall not_nan fs ->
  exists lo i hi j lo' i' hi' j',
    find_min weather_data = Ok (Some (lo, i)) /\
    find_min reordered = Ok (Some (lo', i')) /\ feq lo lo' = true /\
    find_max weather_data = Ok (Some (hi, j)) /\
    find_max reordered = Ok (Some (hi', j')) /\ feq hi hi' = true.
Proof.
  intros Hp Hne Hc Hnn.
  destruct (Permutation_Forall2 Hp Hc) as (fs' & Hpf & Hc').
  assert (Hne' : reordered <> []).
  { intros ->. apply Permutation_sym, Permutation_nil in Hp. contradiction. }
  assert (Hnn' : Forall not_nan fs') by exact (Permutation_Forall Hpf Hnn).
  destruct (find_min_value _ _ Hne Hc Hnn) as (lo & i & Hmin & Hlo_in & Hlo & _).
  destruct (find_max_value _ _ Hne Hc Hnn) as (hi & j & Hmax & Hhi_in & Hhi & _).
  destruct (find_min_value _ _ Hne' Hc' Hnn')
    as (lo' & i' & Hmin' & Hlo_in' & Hlo' & _).
  destruct (find_max_value _ _ Hne' Hc' Hnn')
    as (hi' & j' & Hmax' & Hhi_in' & Hhi' & _).
  exists lo, i, hi, j, lo', i', hi', j'.
  rewrite Forall_forall in Hlo, Hhi, Hlo', Hhi', Hnn, Hnn'.
  assert (Hto : forall x, In x fs -> In x fs')
    by (intros x; apply Permutation_in; exact Hpf).
  assert (Hfrom : forall x, In x fs' -> In x fs)
    by (intros x; apply Permutation_in, Permutation_sym; exact Hpf).
  repeat (split; [assumption|]). split.
  - apply fle_antisym; auto.
  - split; [assumption|]. split; [assumption|].
    apply fle_antisym; auto.
Qed.

Lemma find_min_max_permutation_witness :
  exists lo i hi j lo' i' hi' j',
    find_min [VInt 57; VStr "49"; VInt 49] = Ok (Some (lo, i)) /\
    find_min [VStr "49"; VInt 57; VInt 49] = Ok (Some (lo', i')) /\
    feq lo lo' = true /\
    find_max [VInt 57; VStr "49"; VInt 49] = Ok (Some (hi, j)) /\
    find_max [VStr "49"; VInt 57; VInt 49] = Ok (Some (hi', j')) /\
    feq hi hi' = true.
Proof.
  apply (find_min_max_permutation [VInt 57; VStr "49"; VInt 49]
           [VStr "49"; VInt 57; VInt 49]
           [nearest_of_Z 57; nearest_of_Z 49; nearest_of_Z 49]).
  - apply perm_swap.
  - discriminate.
  - repeat constructor.
  - repeat constructor.
Defined.

(** *** NaN *)

Lemma flt_nan_r (x : float) : flt x S754_nan = false.
Proof. destruct x; reflexivity. Qed.

Lemma flt_nan_l (x : float) : flt S754_nan x = false.
Proof. reflexivity. Qed.

Lemma feq_nan_r (x : float) : feq x S754_nan = false.
Proof. destruct x; reflexivity. Qed.

Lemma pick_keeps (better : float -> float -> bool) (best : float_obj)
  (l : list float_obj) :
  (forall x, better x (oval best) = false) -> pick better best l = best.
Proof.
  intro H. induction l as [|x l IH]; cbn [pick]; [reflexivity|].
  now rewrite H.
Qed.

Lemma index_app_last (l : list float_obj) (m : float_obj) :
  Forall (fun y => same_or_equal y m = false) l ->
  index (l ++ [m]) m = Ok (len l).
Proof.
  induction 1 as [|y l Hy _ IH]; cbn [app index].
  - now rewrite same_or_equal_refl.
  - rewrite Hy, IH. cbn [bind]. f_equal. unfold len. cbn [List.length]. lia.
Qed.

Lemma index_first_nan (f : float) (fs : list float) :
  index (rev (number 0 (S754_nan :: fs))) {| oid := 0; oval := S754_nan |}
  = Ok (len fs).
Proof.
  cbn [number rev]. rewrite index_app_last.
  - unfold len. now rewrite length_rev, length_number.
  - apply Forall_forall. intros y Hy. apply in_rev in Hy.
    unfold same_or_equal. cbn [oid oval].
    rewrite feq_nan_r, orb_false_r.
    apply Nat.eqb_neq. apply number_oid_ge in Hy. lia.
Qed.

(** X6.  A NaN in the first place hides every other item: when the first
    item converts to NaN and the others convert to numbers, [find_min] and
    [find_max] both return NaN with the index 0, whatever the numbers are
    (no float is less or greater than NaN, and [index] finds the NaN by
    identity, at its own position). *)
Theorem find_min_max_nan_first (x : value) (rest : list value)
  (fs : list float) :
  py_float x = Ok S754_nan -> converts rest fs -> Forall not_nan fs ->
  find_min (x :: rest) = Ok (Some (S754_nan, 0)) /\
  find_max (x :: rest) = Ok (Some (S754_nan, 0)).
Proof.
  intros Hx Hc _.
  assert (Hc' : converts (x :: rest) (S754_nan :: fs)) by now constructor.
  split.
  - rewrite (find_min_unfold _ _ _ Hc'). cbv zeta.
    rewrite min_loop_pick, pick_keeps by (intro; apply flt_nan_r).
    rewrite (index_first_nan S754_nan). cbn [bind oval]. do 3 f_equal.
    unfold len. cbn [number List.length]. rewrite length_number. lia.
  - rewrite (find_max_unfold _ _ _ Hc'). cbv zeta.
    rewrite max_loop_pick, pick_keeps by (intro; apply flt_nan_l).
    rewrite (index_first_nan S754_nan). cbn [bind oval]. do 3 f_equal.
    unfold len. cbn [number List.length]. rewrite length_number. lia.
Qed.

Lemma find_min_max_nan_first_witness :
  find_min [VStr "nan"; VInt 49; VInt 57] = Ok (Some (S754_nan, 0)) /\
  find_max [VStr "nan"; VInt 49; VInt 57] = Ok (Some (S754_nan, 0)).
Proof.
  apply (find_min_max_nan_first (VStr "nan") [VInt 49; VInt 57]
           [nearest_of_Z 49; nearest_of_Z 57]).
  - reflexivity.
  - repeat constructor.
  - repeat constructor.
Defined.

(** ** Conversions, further *)

(** What [float] raises, and on what. *)
Lemma py_float_raises (v : value) (e : exn) :
  py_float v = Raise e ->
  (exists s, v = VStr s /\ float_of_str s = None /\ e = ValueError) \/
  (exists n sign, v = VInt n /\ nearest_of_Z n = S754_infinity sign
                  /\ e = OverflowError).
Proof.
  destruct v as [n|f|s]; cbn [py_float].
  - destruct (nearest_of_Z n) as [| sign | |] eqn:E; try discriminate.
    intros [= <-]. right. now exists n, sign.
  - discriminate.
  - destruct (float_of_str s) eqn:E; [discriminate|].
    intros [= <-]. left. now exists s.
Qed.

(** A list converts, or has a first item that does not. *)
Lemma converts_or_first_failure (l : list value) :
  (exists fs, converts l fs) \/
  (exists pre fs x post e,
      l = (pre ++ x :: post)%list /\ converts pre fs /\ py_float x = Raise e).
Proof.
  induction l as [|v l IH].
  - left. exists []. constructor.
  - destruct (py_float v) as [f|e] eqn:Hv.
    + destruct IH as [[fs Hc]|(pre & fs & x & post & e & -> & Hc & Hx)].
      * left. exists (f :: fs). now constructor.
      * right. exists (v :: pre), (f :: fs), x, post, e.
        repeat split; [now constructor|assumption].
    + right. exists [], [], v, l, e. repeat split; [constructor|assumption].
Qed.


Lemma fadd_nan_l (x : float) : fadd S754_nan x = S754_nan.
Proof. reflexivity. Qed.

Lemma fadd_nan_r (x : float) : fadd x S754_nan = S754_nan.
Proof. destruct x; reflexivity. Qed.

Lemma fold_fadd_nan (fs : list float) : fold_left fadd fs S754_nan = S754_nan.
Proof. induction fs as [|f fs IH]; [reflexivity|exact IH]. Qed.

Lemma fold_fadd_In_nan (fs : list float) (t : float) :
  In S754_nan fs -> fold_left fadd fs t = S754_nan.
Proof.
  revert t. induction fs as [|f fs IH]; intro t; [intros []|].
  intros [H|H]; cbn [fold_left].
  - subst f. rewrite fadd_nan_r. apply fold_fadd_nan.
  - now apply IH.
Qed.

(** X8.  One NaN makes the mean NaN: when the items convert and one of
    the floats is NaN, [calculate_mean] returns NaN, wherever the NaN
    stands and whatever the other items are. *)
Theorem calculate_mean_nan (weather_data : list value) (fs : list float) :
  converts weather_data fs -> In S754_nan fs ->
  len weather_data <= maxsize ->
  calculate_mean weather_data = Ok (VFloat S754_nan).
Proof.
  intros Hc Hin Hlen.
  assert (Hne : weather_data <> []).
  { intros ->. inversion Hc; subst. destruct Hin. }
  rewrite (calculate_mean_converts _ fs Hne Hlen Hc).
  unfold float_sum. rewrite (fold_fadd_In_nan _ _ Hin). reflexivity.
Qed.

Lemma calculate_mean_nan_witness :
  calculate_mean [VInt 49; VStr "nan"; VInt 57] = Ok (VFloat S754_nan).
Proof.
  apply (calculate_mean_nan [VInt 49; VStr "nan"; VInt 57]
           [nearest_of_Z 49; S754_nan; nearest_of_Z 57]).
  - repeat constructor.
  - right. left. reflexivity.
  - unfold len, maxsize. cbn [List.length]. lia.
Defined.

Lemma binary_round_sign (s : bool) (m : positive) (e : Z) :
  binary_round prec emax s m e
  = match binary_round prec emax false m e with
    | S754_zero _ => S754_zero s
    | S754_infinity _ => S754_infinity s
    | S754_finite _ m' e' => S754_finite s m' e'
    | S754_nan => S754_nan
    end.
Proof.
  unfold binary_round, binary_round_aux.
  destruct (shl_align m e (fexp prec emax (Zpos (digits2_pos m) + e)))
    as [mz ez].
  destruct (shr_fexp prec emax (Zpos mz) ez loc_Exact) as [mrs' e'].
  destruct (shr_fexp prec emax _ e' loc_Exact) as [mrs'' e''].
  destruct (shr_m mrs''); [reflexivity| |reflexivity].
  destruct (e'' <=? emax - prec); reflexivity.
Qed.

(** Integers of magnitude below [2^1023] are within the floats. *)
Lemma py_float_int (n : Z) :
  Z.abs n < 2 ^ 1023 -> exists f, py_float (VInt n) = Ok f.
Proof.
  intro Hn. cbn [py_float].
  destruct n as [|p|p].
  - eexists. reflexivity.
  - destruct (nearest_of_Z_finite (Zpos p)) as (m & e & ->); [lia|].
    eexists. reflexivity.
  - destruct (nearest_of_Z_finite (Zpos p)) as (m & e & He); [lia|].
    unfold nearest_of_Z, binary_normalize in *.
    rewrite binary_round_sign, He. eexists. reflexivity.
Qed.



(** X10.  A temperature that is no finite number passes through
    [convert_f_to_c] unchanged: an infinity stays that infinity and NaN
    stays NaN ([round] with a number of digits does not refuse them). *)
Theorem convert_f_to_c_not_finite (temp_in_fahrenheit : value) (f : float) :
  py_float temp_in_fahrenheit = Ok f ->
  is_finite f = false ->
  convert_f_to_c temp_in_fahrenheit = Ok f.
Proof.
  intros Hf Hn. unfold convert_f_to_c. rewrite Hf. cbn [bind].
  destruct f as [s|[|]| |s m e]; try discriminate; reflexivity.
Qed.

Lemma convert_f_to_c_not_finite_witness :
  convert_f_to_c (VStr " -Infinity ") = Ok (S754_infinity true).
Proof.
  apply (convert_f_to_c_not_finite (VStr " -Infinity ") (S754_infinity true)).
  - reflexivity.
  - reflexivity.
Defined.

(** ** Dates, further *)

Lemma fromisoformat_valid (s : string) (dt : date) :
  fromisoformat s = Ok dt ->
  valid_date (year dt) (month dt) (day dt) = true.
Proof.
  unfold fromisoformat.
  destruct (parse_isoformat_date (list_ascii_of_string s))
    as [[[[y m] d] rest]|]; [|discriminate].
  destruct (match rest with [] => true | _ :: t => time_ok t end);
    cbn [andb]; [|discriminate].
  destruct (valid_date y m d) eqn:Hv; [|discriminate].
  intros [= <-]. exact Hv.
Qed.

Lemma weekday_range (dt : date) : 0 <= weekday dt < 7.
Proof. unfold weekday. apply Z.mod_pos_bound. lia. Qed.

(** X11.  Whatever [convert_date] returns has one shape: its argument was
    a string, read as a date of the calendar, and the text is the English
    name of its weekday, the day on two digits, the English name of its
    month and the year, with single spaces between.  For an argument that
    is no string it raises TypeError. *)
Theorem convert_date_shape (iso_string : value) :
  (forall text : string,
      convert_date iso_string = Ok text ->
      exists s dt,
        iso_string = VStr s /\ fromisoformat s = Ok dt /\
        valid_date (year dt) (month dt) (day dt) = true /\
        In (day_name dt) day_names /\
        In (month_name dt) (tl month_names) /\
        text = (day_name dt ++ " " ++ two_digits (day dt) ++ " "
                ++ month_name dt ++ " " ++ decimal (year dt))%string) /\
  ((forall s, iso_string <> VStr s) ->
   convert_date iso_string = Raise TypeError).
Proof.
  split.
  - intros text H. destruct iso_string as [n|f|s]; try discriminate.
    cbn [convert_date] in H.
    destruct (fromisoformat s) as [dt|] eqn:Hdt; cbn [bind] in H;
      [|discriminate].
    injection H as <-. exists s, dt.
    pose proof (fromisoformat_valid s dt Hdt) as Hv.
    destruct (valid_date_bounds _ _ _ Hv) as (Hy & Hm & Hd).
    split; [reflexivity|]. split; [exact Hdt|]. split; [exact Hv|].
    split; [|split].
    + unfold day_name. pose proof (weekday_range dt) as Hw.
      apply nth_In. cbn [day_names List.length]. lia.
    + unfold month_name.
      assert (Hc : exists k, month dt = Z.of_nat (S k) /\ (k < 12)%nat).
      { exists (Z.to_nat (month dt) - 1)%nat. lia. }
      destruct Hc as (k & -> & Hk). rewrite Nat2Z.id.
      change (nth (S k) month_names "") with (nth k (tl month_names) "").
      apply nth_In. cbn. lia.
    + rewrite strftime_A_d_B_Y, pad2_two_digits by lia. reflexivity.
  - intro H. destruct iso_string as [n|f|s]; try reflexivity.
    now destruct (H s).
Qed.

Lemma convert_date_shape_witness :
  convert_date (VInt 20210706) = Raise TypeError.
Proof.
  apply (proj2 (convert_date_shape (VInt 20210706))).
  intro s. discriminate.
Defined.

(** ** The Loader, further *)

Lemma digit_of_ascii_range (c : ascii) (d : Z) :
  digit_of_ascii c = Some d -> 0 <= d <= 9.
Proof.
  unfold digit_of_ascii.
  destruct (48 <=? Z.of_N (N_of_ascii c)) eqn:H1; [|discriminate].
  destruct (Z.of_N (N_of_ascii c) <=? 57) eqn:H2; [|discriminate].
  cbn [andb]. intros [= <-]. lia.
Qed.

(** No numeral starts as a name of infinity or of NaN does. *)
Lemma digit_no_word (c : ascii) (d : Z) (rest : list ascii) :
  digit_of_ascii c = Some d ->
  is_word "inf" (c :: rest) = false /\
  is_word "infinity" (c :: rest) = false /\
  is_word "nan" (c :: rest) = false.
Proof.
  intro Hd.
  assert (Hl : lower c <> "i"%char /\ lower c <> "n"%char).
  { destruct c as [[] [] [] [] [] [] [] []]; try discriminate Hd;
      split; discriminate. }
  destruct Hl as [Hi Hn].
  unfold is_word. cbn [map].
  repeat split;
    match goal with
    | |- context [list_eq_dec ?d ?a ?b] =>
        destruct (list_eq_dec d a b) as [E|]; [|reflexivity]
    end; cbn in E; injection E; intros; congruence.
Qed.

Lemma digitpart_digits :
  forall (n : nat) (s : list ascii) (ds : list Z) (r : list ascii),
    (List.length s <= n)%nat -> digitpart s = (ds, r) ->
    Forall (fun d => 0 <= d <= 9) ds /\
    (ds <> [] -> exists c d s', s = c :: s' /\ digit_of_ascii c = Some d).
Proof.
  induction n as [|n IH]; intros s ds r Hlen H.
  - destruct s; [|cbn in Hlen; lia]. cbn in H. injection H as <- <-.
    split; [constructor|congruence].
  - destruct s as [|c s']; [cbn in H; injection H as <- <-;
                            split; [constructor|congruence]|].
    cbn [digitpart] in H. cbn [List.length] in Hlen.
    destruct (digit_of_ascii c) as [d|] eqn:Hd;
      [|injection H as <- <-; split; [constructor|congruence]].
    pose proof (digit_of_ascii_range c d Hd) as Hr.
    assert (Hex : exists c0 d0 s0, c :: s' = c0 :: s0 /\ digit_of_ascii c0 = Some d0)
      by (now exists c, d, s').
    assert (Hrec : forall t ds' r', (List.length t <= n)%nat ->
              (let (ds0, r0) := digitpart t in (d :: ds0, r0)) = (ds', r') ->
              Forall (fun d => 0 <= d <= 9) ds').
    { intros t ds' r' Ht Heq. destruct (digitpart t) as [ds0 r0] eqn:E.
      injection Heq as <- <-. constructor; [exact Hr|].
      exact (proj1 (IH t ds0 r0 Ht E)). }
    destruct s' as [|c1 s1].
    + split; [|intros _; exact Hex]. apply (Hrec [] ds r); [cbn; lia|exact H].
    + destruct (Ascii.ascii_dec c1 "_"%char) as [->|Hne].
      * destruct s1 as [|c2 s2].
        -- split; [|intros _; exact Hex].
           apply (Hrec ["_"%char] ds r); [cbn in *; lia|exact H].
        -- destruct (is_digit c2).
           ++ split; [|intros _; exact Hex].
              apply (Hrec (c2 :: s2) ds r); [cbn in *; lia|exact H].
           ++ injection H as <- <-. split; [|intros _; exact Hex].
              constructor; [exact Hr|constructor].
      * split; [|intros _; exact Hex].
        apply (Hrec (c1 :: s1) ds r); [cbn in *; lia|].
        destruct c1 as [[] [] [] [] [] [] [] []]; try exact H.
        contradiction Hne. reflexivity.
Qed.

Lemma Z_of_digits_fold (ds : list Z) (acc : Z) :
  Forall (fun d => 0 <= d <= 9) ds -> 0 <= acc ->
  0 <= fold_left (fun acc d => 10 * acc + d) ds acc.
Proof.
  intro H. revert acc. induction H as [|d ds Hd _ IH]; intros acc Ha; cbn [fold_left].
  - exact Ha.
  - apply IH. cbn beta in Hd. lia.
Qed.

Lemma Z_of_digits_nonneg (ds : list Z) :
  Forall (fun d => 0 <= d <= 9) ds -> 0 <= Z_of_digits ds.
Proof. intro H. apply Z_of_digits_fold; [exact H|lia]. Qed.

Lemma nearest_of_decimal_int (neg : bool) (p : positive) :
  nearest_of_decimal neg (Zpos p) 0
  = nearest_of_Z (if neg then - Zpos p else Zpos p).
Proof.
  unfold nearest_of_decimal, nearest_of_Z, binary_normalize.
  cbn [Z.leb Z.compare Z.pow Z.to_pos Z.pow_pos].
  change (Z.to_pos (10 ^ 0)) with 1%positive.
  rewrite Pos.mul_1_r. destruct neg; reflexivity.
Qed.

(** A numeral that [int] reads, [float] reads as the float nearest to the
    integer, whose sign a zero loses. *)
Lemma float_of_int_numeral (s : string) (n : Z) :
  int_of_str s = Some n ->
  float_of_str s
  = Some (if n =? 0
          then S754_zero (fst (read_sign (strip (list_ascii_of_string s))))
          else nearest_of_Z n).
Proof.
  unfold int_of_str, float_of_str.
  destruct (read_sign (strip (list_ascii_of_string s))) as [neg body].
  cbn [fst].
  destruct (digitpart body) as [ds r] eqn:Hdp.
  destruct ds as [|d0 ds']; [discriminate|].
  destruct r; [|discriminate].
  destruct (List.length (d0 :: ds') <=? int_max_str_digits)%nat;
    [|discriminate].
  intros [= <-].
  destruct (digitpart_digits (List.length body) body _ _ (le_n _) Hdp)
    as [Hds Hex].
  destruct Hex as (c & d & s' & -> & Hc); [discriminate|].
  destruct (digit_no_word c d s' Hc) as (-> & -> & ->).
  cbn [orb].
  cbn [read_exponent]. rewrite app_nil_r. cbn [List.length Z.of_nat Z.sub].
  pose proof (Z_of_digits_nonneg _ Hds) as Hnn.
  destruct (Z_of_digits (d0 :: ds')) as [|p|p] eqn:Hz; [| |lia].
  - destruct neg; reflexivity.
  - rewrite nearest_of_decimal_int. destruct neg; reflexivity.
Qed.

(** What [float] makes of a field that the Loader has coerced. *)
Lemma py_float_coerce (field : string) (f : float) :
  float_of_str field = Some f -> is_finite f = true ->
  exists f', py_float (coerce field) = Ok f' /\
             (f' = f \/ (is_zero f = true /\ is_zero f' = true)).
Proof.
  intros Hf Hfin. unfold coerce.
  destruct (int_of_str field) as [n|] eqn:Hn.
  - rewrite (float_of_int_numeral field n Hn) in Hf.
    destruct (n =? 0) eqn:Hz.
    + apply Z.eqb_eq in Hz. subst n. injection Hf as <-.
      eexists. split; [reflexivity|]. right. split; reflexivity.
    + injection Hf as <-. exists (nearest_of_Z n). split; [|now left].
      cbn [py_float]. destruct (nearest_of_Z n); try reflexivity.
      discriminate.
  - exists f. split; [|now left]. cbn [py_float]. now rewrite Hf.
Qed.

(** The Celsius value of a field is the same before and after the
    Loader's coercion. *)
Lemma convert_f_to_c_coerce (field : string) (f : float) :
  float_of_str field = Some f -> is_finite f = true ->
  convert_f_to_c (coerce field) = convert_f_to_c (VStr field).
Proof.
  intros Hf Hfin.
  destruct (py_float_coerce field f Hf Hfin) as (f' & Hf' & Hsame).
  unfold convert_f_to_c. rewrite Hf'. cbn [py_float]. rewrite Hf. cbn [bind].
  destruct Hsame as [->|[Hz Hz']]; [reflexivity|].
  destruct f as [[|]| | |], f' as [[|]| | |]; try discriminate; reflexivity.
Qed.

(** X12.  The Loader's coercion does not change the temperature: a field
    that [float] reads as a finite number is, once the Loader has made an
    [int] of it or kept it, converted by [float] to the same float, apart
    from the sign of a zero (the field "-0" becomes the [int] 0); and
    [convert_f_to_c] gives the same Celsius value for the field and for
    what the Loader made of it. *)
Theorem coerce_keeps_the_number (field : string) (f : float) :
  float_of_str field = Some f -> is_finite f = true ->
  (exists f', py_float (coerce field) = Ok f' /\
              (f' = f \/ (is_zero f = true /\ is_zero f' = true))) /\
  convert_f_to_c (coerce field) = convert_f_to_c (VStr field).
Proof.
  intros Hf Hfin. split.
  - exact (py_float_coerce field f Hf Hfin).
  - exact (convert_f_to_c_coerce field f Hf Hfin).
Qed.

Lemma coerce_keeps_the_number_witness :
  (exists f', py_float (coerce "-0") = Ok f' /\
              (f' = S754_zero true
               \/ (is_zero (S754_zero true) = true /\ is_zero f' = true))) /\
  convert_f_to_c (coerce "-0") = convert_f_to_c (VStr "-0").
Proof.
  apply (coerce_keeps_the_number "-0" (S754_zero true)).
  - reflexivity.
  - reflexivity.
Defined.

Lemma In_tl {A : Type} (x : A) (l : list A) : In x (tl l) -> In x l.
Proof. destruct l; [intros []|now right]. Qed.

Lemma tl_app {A : Type} (a b : list A) :
  a <> [] -> tl (a ++ b) = (tl a ++ b)%list.
Proof. destruct a; [congruence|reflexivity]. Qed.

(** X13.  A blank line changes nothing wherever it stands, before the header
    or after it: the reader's empty row is dropped before the Loader looks
    for the header. *)
Theorem loader_ignores_blank_lines (fs fs' : string -> file)
  (csv_file csv_file' : string) (before after : list (list string))
  (failure failure' : option string) :
  fs csv_file = Contents (before ++ after) failure ->
  fs' csv_file' = Contents (before ++ [] :: after) failure' ->
  fst (load_data_from_csv fs' csv_file') = fst (load_data_from_csv fs csv_file).
Proof.
  intros H H'.
  rewrite (loader_data _ _ _ _ H), (loader_data _ _ _ _ H').
  rewrite !filter_app. reflexivity.
Qed.

Lemma loader_ignores_blank_lines_witness :
  fst (load_data_from_csv
         (fun _ => Contents ([[]; ["date"; "min"; "max"]]
                             ++ [] :: [["2021-07-02"; "49"; "67"]]) None)
         "b.csv")
  = fst (load_data_from_csv
           (fun _ => Contents ([[]; ["date"; "min"; "max"]]
                               ++ [["2021-07-02"; "49"; "67"]]) None)
           "a.csv").
Proof.
  exact (loader_ignores_blank_lines
           (fun _ => Contents ([[]; ["date"; "min"; "max"]]
                               ++ [["2021-07-02"; "49"; "67"]]) None)
           (fun _ => Contents ([[]; ["date"; "min"; "max"]]
                               ++ [] :: [["2021-07-02"; "49"; "67"]]) None)
           "a.csv" "b.csv" [[]; ["date"; "min"; "max"]]
           [["2021-07-02"; "49"; "67"]] None None eq_refl eq_refl).
Defined.

(** X14.  Rows are processed one by one, in order: when rows are added at
    the end of a file that has a header (a non-empty row), the dataset is
    the dataset of the file followed by the added non-empty rows, each
    processed; none of them is taken for a header. *)
Theorem loader_appended_rows (fs fs' : string -> file)
  (csv_file csv_file' : string) (rows more : list (list string))
  (failure failure' : option string) :
  fs csv_file = Contents rows failure ->
  fs' csv_file' = Contents (rows ++ more) failure' ->
  filter truthy_list rows <> [] ->
  fst (load_data_from_csv fs' csv_file')
  = (fst (load_data_from_csv fs csv_file)
     ++ map process_row (filter truthy_list more))%list.
Proof.
  intros H H' Hh.
  rewrite (loader_data _ _ _ _ H), (loader_data _ _ _ _ H').
  rewrite filter_app, (tl_app _ _ Hh), map_app. reflexivity.
Qed.

Lemma loader_appended_rows_witness :
  fst (load_data_from_csv
         (fun _ => Contents ([["date"; "min"; "max"]]
                             ++ [["2021-07-02"; "49"; "67"]; [];
                                 ["2021-07-03"; "57"; "68"]]) None)
         "b.csv")
  = (fst (load_data_from_csv
            (fun _ => Contents [["date"; "min"; "max"]] None) "a.csv")
     ++ map process_row
          (filter truthy_list [["2021-07-02"; "49"; "67"]; [];
                               ["2021-07-03"; "57"; "68"]]))%list.
Proof.
  apply (loader_appended_rows
           (fun _ => Contents [["date"; "min"; "max"]] None)
           (fun _ => Contents ([["date"; "min"; "max"]]
                               ++ [["2021-07-02"; "49"; "67"]; [];
                                   ["2021-07-03"; "57"; "68"]]) None)
           "a.csv" "b.csv" [["date"; "min"; "max"]]
           [["2021-07-02"; "49"; "67"]; []; ["2021-07-03"; "57"; "68"]]
           None None eq_refl eq_refl).
  discriminate.
Defined.

(** X15.  The Loader prints one line at most, and none exactly when the
    file was opened and read to its end. *)
Theorem loader_prints (fs : string -> file) (csv_file : string) :
  (List.length (snd (load_data_from_csv fs csv_file)) <= 1)%nat /\
  (snd (load_data_from_csv fs csv_file) = []
   <-> exists rows, fs csv_file = Contents rows None).
Proof.
  unfold load_data_from_csv.
  destruct (fs csv_file) as [|rows [e|]]; cbn [fst snd List.length].
  - split; [lia|]. split; [discriminate|intros [rows H]; discriminate].
  - split; [lia|]. split; [discriminate|intros [rows' H]; discriminate].
  - split; [lia|]. split; [intros _; now exists rows|reflexivity].
Qed.

(** X16.  Every row of the dataset comes from a non-empty row of the file
    and has as many items: a string first, then strings and [int]s.  The
    Loader makes no float: a field such as "57.5" stays the string it
    was. *)
Theorem loader_rows_shape (fs : string -> file) (csv_file : string)
  (rows : list (list string)) (failure : option string) (r : list value) :
  fs csv_file = Contents rows failure ->
  In r (fst (load_data_from_csv fs csv_file)) ->
  exists record,
    In record rows /\ record <> [] /\
    List.length r = List.length record /\
    (exists s, nth_error r 0 = Some (VStr s) /\ nth_error record 0 = Some s) /\
    Forall (fun v => forall f, v <> VFloat f) r /\
    (forall i s, nth_error r i = Some (VStr s) -> nth_error record i = Some s).
Proof.
  intros Hf Hin. rewrite (loader_data _ _ _ _ Hf) in Hin.
  apply in_map_iff in Hin. destruct Hin as (record & <- & Hin).
  apply In_tl, filter_In in Hin. destruct Hin as [Hin Ht].
  destruct record as [|field0 fields]; [discriminate|].
  exists (field0 :: fields). rewrite process_row_fields.
  split; [exact Hin|]. split; [discriminate|].
  split; [cbn [List.length]; now rewrite length_map|].
  split; [now exists field0|]. split.
  - constructor; [discriminate|].
    apply Forall_forall. intros v Hv f.
    apply in_map_iff in Hv. destruct Hv as (x & <- & _).
    unfold coerce. destruct (int_of_str x); discriminate.
  - intros [|i] s; cbn [nth_error]; [congruence|].
    rewrite nth_error_map. destruct (nth_error fields i) as [x|]; cbn;
      [|discriminate].
    unfold coerce. destruct (int_of_str x); congruence.
Qed.

Lemma loader_rows_shape_witness :
  exists record,
    In record [["date"; "min"; "max"]; ["2021-07-02"; "49"; "57.5"]] /\
    record <> [] /\
    List.length [VStr "2021-07-02"; VInt 49; VStr "57.5"] = List.length record /\
    (exists s, nth_error [VStr "2021-07-02"; VInt 49; VStr "57.5"] 0
               = Some (VStr s) /\ nth_error record 0 = Some s) /\
    Forall (fun v => forall f, v <> VFloat f)
      [VStr "2021-07-02"; VInt 49; VStr "57.5"] /\
    (forall i s,
        nth_error [VStr "2021-07-02"; VInt 49; VStr "57.5"] i = Some (VStr s) ->
        nth_error record i = Some s).
Proof.
  apply (loader_rows_shape
           (fun _ => Contents [["date"; "min"; "max"];
                               ["2021-07-02"; "49"; "57.5"]] None)
           "weather.csv"
           [["date"; "min"; "max"]; ["2021-07-02"; "49"; "57.5"]] None
           [VStr "2021-07-02"; VInt 49; VStr "57.5"]).
  - reflexivity.
  - left. reflexivity.
Defined.

(** X17.  When reading fails after the reader has yielded [rows], the Loader
    prints the error and returns the rows processed so far. *)
Theorem loader_read_error_keeps_rows (fs : string -> file)
  (csv_file : string) (rows : list (list string)) (e : string) :
  fs csv_file = Contents rows (Some e) ->
  load_data_from_csv fs csv_file
  = (map process_row (tl (filter truthy_list rows)),
     ["An error occurred: " ++ e]%string).
Proof.
  intro Hf. pose proof (loader_data fs csv_file rows (Some e) Hf) as Hd.
  unfold load_data_from_csv in *. rewrite Hf in *. cbn [fst] in Hd.
  now rewrite Hd.
Qed.

Lemma loader_read_error_keeps_rows_witness :
  load_data_from_csv
    (fun _ => Contents [["date"; "min"; "max"]; ["2021-07-02"; "49"; "67"]]
                (Some "bad line"))
    "weather.csv"
  = ([[VStr "2021-07-02"; VInt 49; VInt 67]], ["An error occurred: bad line"]).
Proof.
  exact (loader_read_error_keeps_rows
           (fun _ => Contents [["date"; "min"; "max"];
                               ["2021-07-02"; "49"; "67"]] (Some "bad line"))
           "weather.csv"
           [["date"; "min"; "max"]; ["2021-07-02"; "49"; "67"]] "bad line"
           eq_refl).
Defined.

Lemma filter_all {A : Type} (p : A -> bool) (l : list A) :
  Forall (fun x => p x = true) l -> filter p l = l.
Proof.
  induction 1 as [|x l Hx _ IH]; cbn [filter]; [reflexivity|].
  now rewrite Hx, IH.
Qed.

(** X18.  Only the reader's empty row is dropped: a row that has fields is
    kept whatever they hold, blank fields also (the test on the cells of a
    row is a string, which is always true).  When no row of the file is
    empty, the dataset has one row for each row after the first. *)
Theorem loader_keeps_blank_fields (fs : string -> file) (csv_file : string)
  (rows : list (list string)) (failure : option string) :
  fs csv_file = Contents rows failure ->
  Forall (fun row => row <> []) rows ->
  fst (load_data_from_csv fs csv_file) = map process_row (tl rows) /\
  len (fst (load_data_from_csv fs csv_file)) = Z.max 0 (len rows - 1).
Proof.
  intros Hf Hrows. rewrite (loader_data _ _ _ _ Hf).
  rewrite filter_all.
  - split; [reflexivity|]. rewrite len_map. unfold len.
    destruct rows; cbn [tl List.length]; lia.
  - revert Hrows. apply Forall_impl. intros [|a l]; [congruence|reflexivity].
Qed.

Lemma loader_keeps_blank_fields_witness :
  fst (load_data_from_csv
         (fun _ => Contents [["date"; "min"; "max"]; [""]; [" "; ""; "  "]]
                     None)
         "weather.csv")
  = [[VStr ""]; [VStr " "; VStr ""; VStr "  "]].
Proof.
  apply (loader_keeps_blank_fields
           (fun _ => Contents [["date"; "min"; "max"]; [""]; [" "; ""; "  "]]
                       None)
           "weather.csv"
           [["date"; "min"; "max"]; [""]; [" "; ""; "  "]] None).
  - reflexivity.
  - repeat constructor; discriminate.
Defined.

(** ** The summaries, further *)

Lemma getitem_firstn {A : Type} (row : list A) (k : Z) :
  0 <= k < 3 -> getitem (firstn 3 row) k = getitem row k.
Proof.
  intro Hk.
  assert (Hc : k = 0 \/ k = 1 \/ k = 2) by lia.
  destruct row as [|a [|b [|c rest]]]; try reflexivity.
  destruct Hc as [-> | [-> | ->]].
  - rewrite (getitem_ok _ 0 a), (getitem_ok _ 0 a); (reflexivity || lia).
  - rewrite (getitem_ok _ 1 b), (getitem_ok _ 1 b); (reflexivity || lia).
  - rewrite (getitem_ok _ 2 c), (getitem_ok _ 2 c); (reflexivity || lia).
Qed.

Lemma getitem_map {A B : Type} (f : A -> B) (l : list A) (i : Z) :
  getitem (map f l) i
  = match getitem l i with
    | Ok a => Ok (f a)
    | Raise e => Raise e
    end.
Proof.
  unfold getitem. rewrite len_map.
  destruct ((0 <=? (if i <? 0 then i + len l else i))
            && ((if i <? 0 then i + len l else i) <? len l)); [|reflexivity].
  rewrite nth_error_map.
  destruct (nth_error l _); reflexivity.
Qed.

Lemma column_firstn (k : Z) (weather_data : list (list value)) :
  0 <= k < 3 -> column k (map (firstn 3) weather_data) = column k weather_data.
Proof.
  intro Hk. induction weather_data as [|row rest IH]; [reflexivity|].
  cbn [map column]. rewrite (getitem_firstn row k Hk), IH. reflexivity.
Qed.

Lemma day_summary_firstn (row : list value) :
  day_summary (firstn 3 row) = day_summary row.
Proof.
  unfold day_summary.
  rewrite !getitem_firstn by lia. reflexivity.
Qed.

Lemma daily_loop_firstn (weather_data : list (list value)) :
  forall summary_lines,
    daily_loop summary_lines (map (firstn 3) weather_data)
    = daily_loop summary_lines weather_data.
Proof.
  induction weather_data as [|row rest IH]; intro summary_lines;
    [reflexivity|].
  cbn [map daily_loop]. rewrite day_summary_firstn.
  same_step. apply IH.
Qed.

(** X19.  Both summaries read the first three items of a row and no other:
    on every dataset, well formed or not, each gives what it gives on the
    dataset cut to three columns, the same text or the same exception. *)
Theorem summaries_read_three_columns (weather_data : list (list value)) :
  generate_summary (map (firstn 3) weather_data)
  = generate_summary weather_data /\
  generate_daily_summary (map (firstn 3) weather_data)
  = generate_daily_summary weather_data.
Proof.
  split.
  - unfold generate_summary.
    destruct weather_data as [|row0 rest]; [reflexivity|].
    cbn [map].
    change (firstn 3 row0 :: map (firstn 3) rest)
      with (map (firstn 3) (row0 :: rest)).
    rewrite (column_firstn 1) by lia. same_step.
    rewrite (column_firstn 2) by lia. same_step.
    same_step. same_step.
    same_step. same_step.
    rewrite getitem_map.
    match goal with |- context [getitem (row0 :: rest) ?i] =>
      destruct (getitem (row0 :: rest) i) as [?|] end;
      cbn [bind]; [|reflexivity].
    rewrite getitem_firstn by lia. same_step. same_step.
    same_step. same_step.
    same_step. same_step.
    rewrite getitem_map.
    match goal with |- context [getitem (row0 :: rest) ?i] =>
      destruct (getitem (row0 :: rest) i) as [?|] end;
      cbn [bind]; [|reflexivity].
    rewrite getitem_firstn by lia. same_step. same_step.
    repeat same_step.
    rewrite len_map. reflexivity.
  - unfold generate_daily_summary. rewrite daily_loop_firstn. reflexivity.
Qed.

Lemma daily_loop_acc (weather_data : list (list value)) :
  forall summary_lines,
    daily_loop summary_lines weather_data
    = (lines <- daily_loop [] weather_data ;; Ok (summary_lines ++ lines)%list).
Proof.
  induction weather_data as [|row rest IH]; intro summary_lines;
    cbn [daily_loop].
  - cbn [bind]. now rewrite app_nil_r.
  - destruct (day_summary row) as [day|]; cbn [bind]; [|reflexivity].
    rewrite (IH (summary_lines ++ [day])%list), (IH ([] ++ [day])%list).
    destruct (daily_loop [] rest); cbn [bind]; [|reflexivity].
    now rewrite <- app_assoc.
Qed.

Lemma daily_loop_app (a b : list (list value)) :
  forall summary_lines,
    daily_loop summary_lines (a ++ b)
    = (lines <- daily_loop summary_lines a ;; daily_loop lines b).
Proof.
  induction a as [|row rest IH]; intro summary_lines; cbn [daily_loop app].
  - reflexivity.
  - destruct (day_summary row); cbn [bind]; [apply IH|reflexivity].
Qed.

Lemma daily_loop_length (weather_data : list (list value))
  (lines : list string) :
  daily_loop [] weather_data = Ok lines ->
  List.length lines = List.length weather_data.
Proof.
  intro H. destruct (daily_loop_blocks _ _ _ H) as (blocks & HF & ->).
  cbn [app]. symmetry. exact (Forall2_length HF).
Qed.

Lemma join_app (sep : string) (x y : list string) :
  x <> [] -> y <> [] ->
  join sep (x ++ y) = (join sep x ++ sep ++ join sep y)%string.
Proof.
  intros Hx Hy. induction x as [|a x IH]; [congruence|].
  destruct x as [|b x].
  - destruct y; [congruence|]. reflexivity.
  - change (join sep ((a :: b :: x) ++ y))
      with (a ++ sep ++ join sep ((b :: x) ++ y))%string.
    rewrite IH by discriminate.
    change (join sep (a :: b :: x)) with (a ++ sep ++ join sep (b :: x))%string.
    now rewrite !append_assoc.
Qed.

(** X20.  The daily summary of two datasets put end to end is the two
    daily summaries put end to end, when neither dataset is empty (the
    summary of an empty dataset is a lone line feed, which would add a
    line). *)
Theorem generate_daily_summary_app (a b : list (list value))
  (summary_a summary_b : string) :
  a <> [] -> b <> [] ->
  generate_daily_summary a = Ok summary_a ->
  generate_daily_summary b = Ok summary_b ->
  generate_daily_summary (a ++ b) = Ok (summary_a ++ summary_b)%string.
Proof.
  unfold generate_daily_summary. intros Ha Hb Hsa Hsb.
  destruct (daily_loop [] a) as [la|] eqn:Hla; cbn [bind] in Hsa;
    [|discriminate].
  destruct (daily_loop [] b) as [lb|] eqn:Hlb; cbn [bind] in Hsb;
    [|discriminate].
  injection Hsa as <-. injection Hsb as <-.
  rewrite daily_loop_app, Hla. cbn [bind].
  rewrite daily_loop_acc, Hlb. cbn [bind].
  apply daily_loop_length in Hla, Hlb.
  rewrite join_app.
  - now rewrite !append_assoc.
  - destruct la; [destruct a; [congruence|discriminate]|discriminate].
  - destruct lb; [destruct b; [congruence|discriminate]|discriminate].
Qed.

Lemma generate_daily_summary_app_witness :
  generate_daily_summary
    ([[VStr "2021-07-02"; VInt 49; VInt 67]]
     ++ [[VStr "2021-07-03"; VInt 57; VInt 68]])
  = Ok (("---- Friday 02 July 2021 ----" ++ nl
         ++ "  Minimum Temperature: 9.4°C" ++ nl
         ++ "  Maximum Temperature: 19.4°C" ++ nl ++ nl)
        ++ ("---- Saturday 03 July 2021 ----" ++ nl
            ++ "  Minimum Temperature: 13.9°C" ++ nl
            ++ "  Maximum Temperature: 20.0°C" ++ nl ++ nl))%string.
Proof.
  apply (generate_daily_summary_app
           [[VStr "2021-07-02"; VInt 49; VInt 67]]
           [[VStr "2021-07-03"; VInt 57; VInt 68]]).
  - discriminate.
  - discriminate.
  - vm_compute. reflexivity.
  - vm_compute. reflexivity.
Defined.

Lemma day_summary_short (row : list value) :
  (List.length row < 3)%nat -> day_summary row = Raise IndexError.
Proof.
  destruct row as [|a [|b [|c rest]]]; cbn [List.length]; intro H;
    try reflexivity; lia.
Qed.

Lemma generate_daily_summary_raises (pre post : list (list value))
  (row : list value) (e : exn) :
  Forall well_formed_row pre -> day_summary row = Raise e ->
  generate_daily_summary (pre ++ row :: post) = Raise e.
Proof.
  intros Hpre Hrow. unfold generate_daily_summary.
  rewrite daily_loop_app.
  destruct (daily_loop_total pre [] Hpre) as [lines ->]. cbn [bind daily_loop].
  rewrite Hrow. reflexivity.
Qed.

(** X21.  The daily summary stops at the first row it cannot print and
    raises that row's error; no text of the rows before it is returned.
    Within the row, a missing item comes first (IndexError for a row of
    fewer than three items), then the date, then the minimum, then the
    maximum. *)
Theorem generate_daily_summary_first_failure (pre post : list (list value))
  (row : list value) :
  Forall well_formed_row pre ->
  ((List.length row < 3)%nat ->
   generate_daily_summary (pre ++ row :: post) = Raise IndexError) /\
  (forall (d lo hi : value) (rest : list value) (e : exn),
      row = d :: lo :: hi :: rest ->
      (convert_date d = Raise e ->
       generate_daily_summary (pre ++ row :: post) = Raise e) /\
      (forall t, convert_date d = Ok t -> py_float lo = Raise e ->
                 generate_daily_summary (pre ++ row :: post) = Raise e) /\
      (forall t f, convert_date d = Ok t -> py_float lo = Ok f ->
                   py_float hi = Raise e ->
                   generate_daily_summary (pre ++ row :: post) = Raise e)).
Proof.
  intro Hpre. split.
  - intro H. apply generate_daily_summary_raises; [exact Hpre|].
    now apply day_summary_short.
  - intros d lo hi rest e ->.
    split; [|split].
    + intro Hd. apply generate_daily_summary_raises; [exact Hpre|].
      unfold day_summary.
      rewrite (getitem_ok _ 0 d), (getitem_ok _ 1 lo), (getitem_ok _ 2 hi)
        by (reflexivity || lia).
      cbn [bind]. rewrite Hd. reflexivity.
    + intros t Hd Hlo. apply generate_daily_summary_raises; [exact Hpre|].
      unfold day_summary.
      rewrite (getitem_ok _ 0 d), (getitem_ok _ 1 lo), (getitem_ok _ 2 hi)
        by (reflexivity || lia).
      cbn [bind]. rewrite Hd. cbn [bind]. unfold convert_f_to_c.
      rewrite Hlo. reflexivity.
    + intros t f Hd Hlo Hhi.
      apply generate_daily_summary_raises; [exact Hpre|].
      unfold day_summary.
      rewrite (getitem_ok _ 0 d), (getitem_ok _ 1 lo), (getitem_ok _ 2 hi)
        by (reflexivity || lia).
      cbn [bind]. rewrite Hd. cbn [bind]. unfold convert_f_to_c.
      rewrite Hlo, Hhi. reflexivity.
Qed.

Lemma generate_daily_summary_first_failure_witness :
  generate_daily_summary
    ([[VStr "2021-07-02"; VInt 49; VInt 67]]
     ++ [VStr "2021-07-03"; VInt 57] :: [[VStr "no date"; VStr "x"; VStr "y"]])
  = Raise IndexError.
Proof.
  apply (generate_daily_summary_first_failure
           [[VStr "2021-07-02"; VInt 49; VInt 67]]
           [[VStr "no date"; VStr "x"; VStr "y"]]
           [VStr "2021-07-03"; VInt 57]).
  - repeat constructor.
    exists "2021-07-02", {| year := 2021; month := 7; day := 2 |},
      (VInt 49), (VInt 67), [], (nearest_of_Z 49), (nearest_of_Z 67).
    repeat split; reflexivity.
  - cbn. lia.
Defined.

Lemma column_app (k : Z) (a b : list (list value)) :
  column k (a ++ b)
  = (fs <- column k a ;; gs <- column k b ;; Ok (fs ++ gs)%list).
Proof.
  induction a as [|row rest IH]; cbn [column app bind].
  - destruct (column k b); reflexivity.
  - destruct (getitem row k) as [x|]; cbn [bind]; [|reflexivity].
    destruct (py_float x) as [f|]; cbn [bind]; [|reflexivity].
    rewrite IH.
    destruct (column k rest); cbn [bind]; [|reflexivity].
    destruct (column k b); reflexivity.
Qed.

Lemma getitem_short {A : Type} (l : list A) (i : Z) :
  len l <= i -> getitem l i = Raise IndexError.
Proof.
  intro H. unfold getitem.
  assert (0 <= len l) by (unfold len; lia).
  destruct (Z.ltb_spec i 0) as [|_]; [lia|].
  destruct (Z.ltb_spec i (len l)) as [|_]; [lia|].
  now rewrite andb_false_r.
Qed.

(** The summary raises what the first column that fails raises. *)
Lemma generate_summary_column (weather_data : list (list value)) (e : exn) :
  weather_data <> [] ->
  column 1 weather_data = Raise e \/
  (exists min_temps, column 1 weather_data = Ok min_temps)
  /\ column 2 weather_data = Raise e ->
  generate_summary weather_data = Raise e.
Proof.
  intros Hne H. unfold generate_summary.
  destruct weather_data as [|row0 rest]; [congruence|].
  destruct H as [->|[[min_temps ->] ->]]; reflexivity.
Qed.

Lemma app_cons_not_nil {A : Type} (a b : list A) (x : A) :
  (a ++ x :: b)%list <> [].
Proof. destruct a; discriminate. Qed.

Lemma column_converts (k : nat) (weather_data : list (list value)) :
  Forall (converts_at k) weather_data ->
  exists fs, column (Z.of_nat k) weather_data = Ok (map VFloat fs).
Proof.
  induction 1 as [|row rest (x & f & Hx & Hf) _ (fs & IH)].
  - now exists [].
  - exists (f :: fs). cbn [column].
    rewrite (getitem_ok row (Z.of_nat k) x) by (rewrite ?Nat2Z.id; (exact Hx || lia)).
    cbn [bind]. rewrite Hf, IH. reflexivity.
Qed.

(** X22.  The overview converts the whole column of minima first, then the
    whole column of maxima, and raises the first error it meets on the way:
    IndexError for a row with no such item, the error of [float] for an item
    that does not convert.  No maximum is looked at before every minimum
    has converted, and no date before both columns have: the dates, valid
    or not, play no part here. *)
Theorem generate_summary_first_failure (pre post : list (list value))
  (row : list value) :
  (Forall (converts_at 1) pre ->
   ((List.length row < 2)%nat ->
    generate_summary (pre ++ row :: post) = Raise IndexError) /\
   (forall (lo : value) (e : exn),
       nth_error row 1 = Some lo -> py_float lo = Raise e ->
       generate_summary (pre ++ row :: post) = Raise e)) /\
  (Forall (converts_at 1) (pre ++ row :: post) ->
   Forall (converts_at 2) pre ->
   ((List.length row = 2)%nat ->
    generate_summary (pre ++ row :: post) = Raise IndexError) /\
   (forall (hi : value) (e : exn),
       nth_error row 2 = Some hi -> py_float hi = Raise e ->
       generate_summary (pre ++ row :: post) = Raise e)).
Proof.
  split.
  - intro Hpre. destruct (column_converts 1 _ Hpre) as [lows Hl].
    change (Z.of_nat 1) with 1 in Hl.
    split.
    + intro Hlen. apply generate_summary_column; [apply app_cons_not_nil|].
      left. rewrite column_app, Hl. cbn [bind column].
      rewrite getitem_short by (unfold len; lia). reflexivity.
    + intros lo e Hlo He.
      apply generate_summary_column; [apply app_cons_not_nil|].
      left. rewrite column_app, Hl. cbn [bind column].
      rewrite (getitem_ok row 1 lo) by (exact Hlo || lia).
      cbn [bind]. rewrite He. reflexivity.
  - intros Hall Hpre.
    destruct (column_converts 1 _ Hall) as [lows Hl].
    destruct (column_converts 2 _ Hpre) as [highs Hh].
    change (Z.of_nat 1) with 1 in Hl. change (Z.of_nat 2) with 2 in Hh.
    split.
    + intro Hlen. apply generate_summary_column; [apply app_cons_not_nil|].
      right. split; [eauto|].
      rewrite column_app, Hh. cbn [bind column].
      rewrite getitem_short by (unfold len; lia). reflexivity.
    + intros hi e Hhi He.
      apply generate_summary_column; [apply app_cons_not_nil|].
      right. split; [eauto|].
      rewrite column_app, Hh. cbn [bind column].
      rewrite (getitem_ok row 2 hi) by (exact Hhi || lia).
      cbn [bind]. rewrite He. reflexivity.
Qed.

Lemma generate_summary_first_failure_witness :
  generate_summary
    ([[VStr "no date"; VInt 49; VStr "high"]]
     ++ [VStr "2021-07-03"; VStr "low"; VInt 68] :: [[VStr "2021-07-04"]])
  = Raise ValueError.
Proof.
  apply (proj1 (generate_summary_first_failure
                  [[VStr "no date"; VInt 49; VStr "high"]]
                  [[VStr "2021-07-04"]]
                  [VStr "2021-07-03"; VStr "low"; VInt 68]))
    with (lo := VStr "low").
  - repeat constructor. exists (VInt 49), (nearest_of_Z 49).
    split; reflexivity.
  - reflexivity.
  - reflexivity.
Defined.

(** An index that [find_min] or [find_max] returns is a position of the
    list. *)
Lemma find_min_index_range (weather_data : list value) (v : float) (i : Z) :
  find_min weather_data = Ok (Some (v, i)) -> 0 <= i < len weather_data.
Proof.
  intro H.
  destruct (converts_or_first_failure weather_data)
    as [[fs Hc]|(pre & fs & x & post & e & -> & Hc & Hx)].
  - destruct weather_data as [|a l]; [discriminate|].
    destruct (find_min_in_range (a :: l) fs ltac:(discriminate) Hc)
      as (v' & i' & H' & Hr).
    rewrite H in H'. now injection H' as _ <-.
  - unfold find_min in H.
    rewrite (float_list_failure pre fs x post e Hc Hx 0) in H.
    destruct (pre ++ x :: post)%list; discriminate.
Qed.

Lemma find_max_index_range (weather_data : list value) (v : float) (i : Z) :
  find_max weather_data = Ok (Some (v, i)) -> 0 <= i < len weather_data.
Proof.
  intro H.
  destruct (converts_or_first_failure weather_data)
    as [[fs Hc]|(pre & fs & x & post & e & -> & Hc & Hx)].
  - destruct weather_data as [|a l]; [discriminate|].
    destruct (find_max_in_range (a :: l) fs ltac:(discriminate) Hc)
      as (v' & i' & H' & Hr).
    rewrite H in H'. now injection H' as _ <-.
  - unfold find_max in H.
    rewrite (float_list_failure pre fs x post e Hc Hx 0) in H.
    destruct (pre ++ x :: post)%list; discriminate.
Qed.

Lemma getitem_elsewhere {A : Type} (pre post : list A) (x x' : A) (i : Z) :
  0 <= i -> i <> len pre ->
  getitem (pre ++ x' :: post) i = getitem (pre ++ x :: post) i.
Proof.
  intros Hi Hne. unfold getitem, len in *. rewrite !length_app.
  cbn [List.length].
  destruct (Z.ltb_spec i 0) as [|_]; [lia|].
  destruct ((0 <=? i) && (i <? Z.of_nat (List.length pre + S (List.length post))));
    [|reflexivity].
  destruct (Nat.lt_ge_cases (Z.to_nat i) (List.length pre)) as [Hlt|Hge].
  - now rewrite !nth_error_app1.
  - rewrite !nth_error_app2 by exact Hge.
    destruct (Z.to_nat i - List.length pre)%nat eqn:E; [lia|reflexivity].
Qed.

Lemma column_elsewhere (k : Z) (pre post : list (list value))
  (d d' : value) (rest : list value) :
  1 <= k ->
  column k (pre ++ (d' :: rest) :: post) = column k (pre ++ (d :: rest) :: post).
Proof.
  intro Hk. rewrite !column_app. cbn [column].
  assert (H : getitem (d' :: rest) k = getitem (d :: rest) k).
  { unfold getitem, len. cbn [List.length].
    destruct (Z.ltb_spec k 0) as [|_]; [lia|].
    destruct ((0 <=? k) && (k <? Z.of_nat (S (List.length rest))));
      [|reflexivity].
    destruct (Z.to_nat k) eqn:E; [lia|reflexivity]. }
  now rewrite H.
Qed.

(** Two datasets with the same columns of temperatures, and the same rows
    where the extrema are, have the same overview. *)
Lemma generate_summary_same (weather_data weather_data' : list (list value))
  (min_temps max_temps : list value) (v_min v_max : float)
  (min_index max_index : Z) :
  weather_data <> [] -> weather_data' <> [] ->
  len weather_data' = len weather_data ->
  column 1 weather_data = Ok min_temps ->
  column 1 weather_data' = Ok min_temps ->
  column 2 weather_data = Ok max_temps ->
  column 2 weather_data' = Ok max_temps ->
  find_min min_temps = Ok (Some (v_min, min_index)) ->
  find_max max_temps = Ok (Some (v_max, max_index)) ->
  getitem weather_data' min_index = getitem weather_data min_index ->
  getitem weather_data' max_index = getitem weather_data max_index ->
  generate_summary weather_data' = generate_summary weather_data.
Proof.
  intros Hne Hne' Hlen Hl Hl' Hh Hh' Hmin Hmax Hi Hj.
  unfold generate_summary.
  destruct weather_data as [|r l]; [congruence|].
  destruct weather_data' as [|r' l']; [congruence|].
  rewrite Hl, Hl', Hh, Hh'. cbn [bind]. rewrite Hmin. cbn [bind unpack].
  rewrite Hi. same_step. same_step. same_step. same_step. same_step.
  rewrite Hmax. cbn [bind unpack].
  rewrite Hj. repeat same_step.
  rewrite Hlen. reflexivity.
Qed.

(** X23.  The overview reads two dates only, the one of the row of the
    lowest minimum and the one of the row of the highest maximum: whatever
    stands as the date of any other row, a valid date or not, a string or
    not, the overview is the same. *)
Theorem generate_summary_reads_two_dates (pre post : list (list value))
  (d d' : value) (rest min_temps max_temps : list value)
  (v_min v_max : float) (min_index max_index : Z) :
  column 1 (pre ++ (d :: rest) :: post) = Ok min_temps ->
  column 2 (pre ++ (d :: rest) :: post) = Ok max_temps ->
  find_min min_temps = Ok (Some (v_min, min_index)) ->
  find_max max_temps = Ok (Some (v_max, max_index)) ->
  min_index <> len pre -> max_index <> len pre ->
  generate_summary (pre ++ (d' :: rest) :: post)
  = generate_summary (pre ++ (d :: rest) :: post).
Proof.
  intros Hl Hh Hmin Hmax Hi Hj.
  pose proof (find_min_index_range _ _ _ Hmin) as [Hi0 _].
  pose proof (find_max_index_range _ _ _ Hmax) as [Hj0 _].
  apply (generate_summary_same _ _ min_temps max_temps v_min v_max
           min_index max_index);
    try apply app_cons_not_nil; try assumption.
  - unfold len. now rewrite !length_app.
  - now rewrite (column_elsewhere 1 pre post d d' rest) by lia.
  - now rewrite (column_elsewhere 2 pre post d d' rest) by lia.
  - now apply getitem_elsewhere.
  - now apply getitem_elsewhere.
Qed.

Lemma generate_summary_reads_two_dates_witness :
  generate_summary
    ([[VStr "2021-07-02"; VInt 49; VInt 67]]
     ++ [VInt 0; VInt 57; VInt 60] :: [[VStr "2021-07-04"; VInt 56; VInt 68]])
  = generate_summary
      ([[VStr "2021-07-02"; VInt 49; VInt 67]]
       ++ [VStr "2021-07-03"; VInt 57; VInt 60]
          :: [[VStr "2021-07-04"; VInt 56; VInt 68]]).
Proof.
  apply (generate_summary_reads_two_dates
           [[VStr "2021-07-02"; VInt 49; VInt 67]]
           [[VStr "2021-07-04"; VInt 56; VInt 68]]
           (VStr "2021-07-03") (VInt 0) [VInt 57; VInt 60]
           (map VFloat [nearest_of_Z 49; nearest_of_Z 57; nearest_of_Z 56])
           (map VFloat [nearest_of_Z 67; nearest_of_Z 60; nearest_of_Z 68])
           (nearest_of_Z 49) (nearest_of_Z 68) 0 2).
  - reflexivity.
  - reflexivity.
  - reflexivity.
  - reflexivity.
  - discriminate.
  - discriminate.
Defined.

(** The overview of a well-formed dataset. *)
Lemma generate_summary_returns (weather_data : list (list value)) :
  len weather_data <= maxsize ->
  Forall well_formed_row weather_data ->
  exists summary, generate_summary weather_data = Ok summary.
Proof.
  intros Hmax HF.
  destruct weather_data as [|row0 rest]; [now exists ""|].
  set (weather_data := row0 :: rest) in *.
  assert (Hne : weather_data <> []) by discriminate.
  destruct (columns_well_formed _ HF) as (lows & highs & Hl & Hh & Hll & Hlh).
  assert (Hlne : map VFloat lows <> []).
  { destruct lows; [|discriminate]. unfold len in Hll. cbn in Hll. lia. }
  assert (Hhne : map VFloat highs <> []).
  { destruct highs; [|discriminate]. unfold len in Hlh. cbn in Hlh. lia. }
  destruct (find_min_in_range _ _ Hlne (converts_floats lows))
    as (v1 & i1 & Hmin & Hi1).
  destruct (find_max_in_range _ _ Hhne (converts_floats highs))
    as (v2 & i2 & Hfmax & Hi2).
  rewrite len_map in Hi1, Hi2. rewrite Hll in Hi1. rewrite Hlh in Hi2.
  destruct (date_lookup _ _ HF Hi1) as (row1 & d1 & t1 & Hr1 & Hd1 & Ht1).
  destruct (date_lookup _ _ HF Hi2) as (row2 & d2 & t2 & Hr2 & Hd2 & Ht2).
  pose proof (calculate_mean_converts _ _ Hlne
                ltac:(rewrite len_map, Hll; exact Hmax)
                (converts_floats lows)) as Hml.
  pose proof (calculate_mean_converts _ _ Hhne
                ltac:(rewrite len_map, Hlh; exact Hmax)
                (converts_floats highs)) as Hmh.
  unfold generate_summary. fold weather_data. cbv iota.
  unfold weather_data at 1.
  rewrite Hl, Hh. cbn [bind]. rewrite Hmin. cbn [bind unpack].
  rewrite convert_f_to_c_float. cbn [bind]. rewrite format_temperature_float.
  cbn [bind]. rewrite Hr1. cbn [bind]. rewrite Hd1. cbn [bind].
  rewrite Ht1. cbn [bind]. rewrite Hfmax. cbn [bind unpack].
  rewrite convert_f_to_c_float. cbn [bind]. rewrite format_temperature_float.
  cbn [bind]. rewrite Hr2. cbn [bind]. rewrite Hd2. cbn [bind].
  rewrite Ht2. cbn [bind]. rewrite Hml, Hmh. cbn [bind].
  rewrite !convert_f_to_c_float. cbn [bind].
  rewrite !format_temperature_float. cbn [bind].
  eauto.
Qed.

Lemma readable_record_well_formed (record : list string) :
  readable_record record -> well_formed_row (process_row record).
Proof.
  intros (s & dt & lo & hi & rest & f1 & f2 & -> & Hs & Hlo & Hf1 & Hhi & Hf2).
  rewrite process_row_fields. cbn [map].
  destruct (py_float_coerce lo f1 Hlo Hf1) as (g1 & Hg1 & _).
  destruct (py_float_coerce hi f2 Hhi Hf2) as (g2 & Hg2 & _).
  exists s, dt, (coerce lo), (coerce hi), (map coerce rest), g1, g2.
  repeat split; assumption.
Qed.

(** X24.  From the file to the summaries: when every record after the
    header holds an ISO date, then a minimum and a maximum that [float]
    reads as finite numbers, the dataset that the Loader returns is one
    that both summaries print; neither raises.  (The coercion to [int]
    could only stand in the way for a numeral beyond the floats, which
    reads as an infinity.) *)
Theorem loaded_dataset_summarised (fs : string -> file) (csv_file : string)
  (rows : list (list string)) (failure : option string) :
  fs csv_file = Contents rows failure ->
  Forall readable_record (tl (filter truthy_list rows)) ->
  Forall well_formed_row (fst (load_data_from_csv fs csv_file)) /\
  (exists summary,
      generate_daily_summary (fst (load_data_from_csv fs csv_file))
      = Ok summary) /\
  (len rows <= maxsize ->
   exists summary,
     generate_summary (fst (load_data_from_csv fs csv_file)) = Ok summary).
Proof.
  intros Hf Hrec. rewrite (loader_data _ _ _ _ Hf).
  assert (HF : Forall well_formed_row
                 (map process_row (tl (filter truthy_list rows)))).
  { apply Forall_map. revert Hrec. apply Forall_impl.
    exact readable_record_well_formed. }
  split; [exact HF|]. split.
  - unfold generate_daily_summary.
    destruct (daily_loop_total _ [] HF) as [lines ->]. cbn [bind]. eauto.
  - intro Hlen. apply generate_summary_returns; [|exact HF].
    rewrite len_map. unfold len in *.
    assert (H1 : (List.length (tl (filter truthy_list rows))
                  <= List.length (filter truthy_list rows))%nat)
      by (destruct (filter truthy_list rows); cbn; lia).
    pose proof (filter_length_le truthy_list rows). lia.
Qed.

Lemma loaded_dataset_summarised_witness :
  exists summary,
    generate_daily_summary
      (fst (load_data_from_csv
              (fun _ => Contents [["date"; "min"; "max"];
                                  ["2021-07-02T07:00:00+08:00"; "49"; " 67.5"];
                                  [];
                                  ["2021-07-03"; "-0"; "1e1"; "note"]] None)
              "weather.csv"))
    = Ok summary.
Proof.
  apply (loaded_dataset_summarised
           (fun _ => Contents [["date"; "min"; "max"];
                               ["2021-07-02T07:00:00+08:00"; "49"; " 67.5"];
                               [];
                               ["2021-07-03"; "-0"; "1e1"; "note"]] None)
           "weather.csv"
           [["date"; "min"; "max"];
            ["2021-07-02T07:00:00+08:00"; "49"; " 67.5"];
            [];
            ["2021-07-03"; "-0"; "1e1"; "note"]] None).
  - reflexivity.
  - cbn [filter truthy_list tl]. repeat constructor.
    + exists "2021-07-02T07:00:00+08:00",
        {| year := 2021; month := 7; day := 2 |}, "49", " 67.5", [],
        (nearest_of_Z 49), (nearest_of_decimal false 675 (-1)).
      repeat split; reflexivity.
    + exists "2021-07-03",
        {| year := 2021; month := 7; day := 3 |}, "-0", "1e1", ["note"],
        (S754_zero true), (nearest_of_Z 10).
      repeat split; reflexivity.
Defined.

(** A row that the daily summary prints is well formed. *)
Lemma day_summary_prints_well_formed (row : list value) (block : string) :
  day_summary row = Ok block -> well_formed_row row.
Proof.
  intro H.
  destruct row as [|d [|lo [|hi rest]]]; try discriminate H.
  unfold day_summary in H.
  rewrite (getitem_ok _ 0 d), (getitem_ok _ 1 lo), (getitem_ok _ 2 hi) in H
    by (reflexivity || lia).
  cbn [bind] in H.
  destruct d as [n|f|s]; try discriminate H.
  cbn [convert_date] in H.
  destruct (fromisoformat s) as [dt|] eqn:Hdt; cbn [bind] in H;
    [|discriminate].
  unfold convert_f_to_c in H.
  destruct (py_float lo) as [f1|] eqn:Hlo; cbn [bind] in H; [|discriminate].
  destruct (py_float hi) as [f2|] eqn:Hhi; cbn [bind] in H; [|discriminate].
  now exists s, dt, lo, hi, rest, f1, f2.
Qed.

(** X25.  A dataset that the daily summary prints, the overview prints as
    well: the daily summary asks of every row what the overview asks of
    some.  (The converse fails: the overview reads two dates only.) *)
Theorem daily_summary_then_overview (weather_data : list (list value))
  (daily : string) :
  generate_daily_summary weather_data = Ok daily ->
  len weather_data <= maxsize ->
  exists summary, generate_summary weather_data = Ok summary.
Proof.
  intros H Hlen. apply generate_summary_returns; [exact Hlen|].
  unfold generate_daily_summary in H.
  destruct (daily_loop [] weather_data) as [lines|] eqn:Hl; [|discriminate].
  destruct (daily_loop_blocks _ _ _ Hl) as (blocks & HF & _).
  clear - HF. induction HF as [|row block rows blocks Hrow _ IH];
    constructor; [|exact IH].
  exact (day_summary_prints_well_formed row block Hrow).
Qed.

Lemma daily_summary_then_overview_witness :
  exists summary,
    generate_summary [[VStr "2021-07-02"; VInt 49; VInt 67];
                      [VStr "2021-07-03"; VStr "57.5"; VInt 68; VStr "x"]]
    = Ok summary.
Proof.
  apply (daily_summary_then_overview
           [[VStr "2021-07-02"; VInt 49; VInt 67];
            [VStr "2021-07-03"; VStr "57.5"; VInt 68; VStr "x"]]
           ("---- Friday 02 July 2021 ----" ++ nl
            ++ "  Minimum Temperature: 9.4°C" ++ nl
            ++ "  Maximum Temperature: 19.4°C" ++ nl ++ nl
            ++ "---- Saturday 03 July 2021 ----" ++ nl
            ++ "  Minimum Temperature: 14.2°C" ++ nl
            ++ "  Maximum Temperature: 20.0°C" ++ nl ++ nl)%string).
  - vm_compute. reflexivity.
  - unfold len, maxsize. cbn [List.length]. lia.
Defined.
